(** * ravenFS front end: the transfer engine of the two pages

    A shallow embedding of the event handlers of the two React pages of the
    front end:

    - the segmented ("DFS") page, [DFSPage]: [fetchFiles],
      [handleUploadSubmit], [handleDownload] (streamed download with
      per-chunk progress and reassembly) and [handleDelete];
    - the whole-file page, [NoDFSPage] (frontend/app/nodfs/page.tsx): the same
      four handlers, its [handleDownload] reading the body as one blob.

    A handler of a React function component reads only the values its closure
    captured at the render that created it, and writes through the state
    setters.  It is therefore modelled as a function from the captured render
    state, its argument and the answers of the browser (fetch results, stream
    reads, clock) to a completion together with the ordered log of its
    effects: state-setter calls and calls of browser APIs.  The state of the
    component after the handler is that log replayed on the current state.

    Numbers: byte counts, lengths and indices are naturals; percentages are
    exact rationals ([Q]), the arithmetic [Math.min(100, received / totalSize
    * 100)] being taken over the rationals.  (Rounding to doubles is monotone
    and exact at the values 0, 1 and 100 the properties below rely on.) *)

From Stdlib Require Import String List ZArith QArith Qminmax Lia Bool Arith.
From Stdlib Require Import DecimalString Sorted NArith.
From Stdlib.Strings Require Import Byte.
Import ListNotations.

Open Scope string_scope.
Open Scope list_scope.
Open Scope nat_scope.

(* ================================================================== *)
(** ** JavaScript values used by the pages *)

Module JS.

(** A slot of a JavaScript array of numbers: a number, or nothing (a hole,
    or [undefined]). *)
Definition slot : Type := option Q.

(** The array [new Array(arg)] builds: [arg] a length gives that many empty
    slots; [arg = undefined] gives the one-element array [[undefined]].  The
    constructor itself refuses lengths from 2^32 on: see [new_Array_checked]
    below. *)
Definition new_Array (arg : option nat) : list slot :=
  match arg with
  | Some len => repeat None len
  | None => [None]
  end.

(** [a.fill(v)] *)
Definition fill (a : list slot) (v : Q) : list slot :=
  map (fun _ => Some v) a.

(** [a.slice()]: a fresh copy. *)
Definition slice (a : list slot) : list slot := a.

(** In-range replacement. *)
Fixpoint replace_at (a : list slot) (i : nat) (v : slot) : list slot :=
  match a, i with
  | [], _ => []
  | _ :: t, O => v :: t
  | h :: t, S j => h :: replace_at t j v
  end.

(** [a[i] = v]: replaces slot [i] when it exists; otherwise the array grows
    to length [i + 1], the slots in between staying empty. *)
Definition array_store (a : list slot) (i : nat) (v : Q) : list slot :=
  if i <? length a then replace_at a i (Some v)
  else a ++ repeat None (i - length a) ++ [Some v].

(** [i < n] where [n] may be [undefined]: a comparison with [undefined] is
    false. *)
Definition lt_number (i : nat) (n : option nat) : bool :=
  match n with
  | Some k => i <? k
  | None => false
  end.

(** [Number(h)] for the value of a Content-Length header: [null] (header
    absent) converts to 0, a string of decimal digits to its value. *)
Definition Number (h : option nat) : nat :=
  match h with
  | Some n => n
  | None => 0
  end.

(** [n || d] on numbers: 0 is falsy. *)
Definition or_else (n d : nat) : nat := if n =? 0 then d else n.

(** [s || d] on an optional string: [undefined] and the empty string are
    falsy. *)
Definition string_or_else (s : option string) (d : string) : string :=
  match s with
  | Some EmptyString => d
  | Some u => u
  | None => d
  end.

(** A number inside a template literal, for the integers a double holds
    exactly and prints in full (magnitude up to 2^53; from 1e21 on the
    template literal switches to the exponent form). *)
Definition String_of_number (z : Z) : string :=
  NilZero.string_of_int (Z.to_int z).

(** [new Uint8Array(n)]: [n] zero bytes. *)
Definition new_Uint8Array (n : nat) : list byte := repeat x00 n.

(** A [File] picked in the form. *)
Record File : Type := { file_name : string; file_content : list byte }.

(** Calls of browser APIs, in the order they are made. *)
Inductive event : Type :=
| Fetch (method : string) (url : string) (form_file : option File)
| ConsoleError (error : string)
| ConsoleLog (message : string)
| PreventDefault
| NewBlob (bytes : list byte)
| CreateObjectURL (blob : list byte) (url : string)
| RevokeObjectURL (url : string)
| CreateElement (tag : string)
| SetHref (url : string)
| SetDownload (name : string)
| AppendChild
| Click
| Remove.

(** Completion of a piece of code: normal, or an exception carrying the
    message of the thrown error. *)
Inductive completion (A : Type) : Type :=
| Ok (a : A)
| Thrown (error : string).
Arguments Ok {A} a.
Arguments Thrown {A} error.

(** The body of a response as a stream: the successive results
    [{done: false, value}] of [reader.read()], then either [{done: true}] or
    a rejected read. *)
Inductive stream_end : Type :=
| Done
| ReadFails (error : string).

Record ReadableStream : Type :=
  { segments : list (option (list byte)); ending : stream_end }.

(** The parsed JSON body, as the pages use it. *)
Record JsonData (F : Type) : Type := { files : list F }.
Arguments files {F} _.

(** What the pages look at in a [Response].  [json] and [blob] are [None]
    when the corresponding promise rejects. *)
Record Response (F : Type) : Type :=
  { ok : bool;
    content_length : option nat;
    body : option ReadableStream;
    json : option (JsonData F);
    blob : option (list byte) }.
Arguments ok {F} _.
Arguments content_length {F} _.
Arguments body {F} _.
Arguments json {F} _.
Arguments blob {F} _.

(** [await fetch(...)]: rejected (network failure) or resolved. *)
Inductive FetchResult (F : Type) : Type :=
| Rejected (error : string)
| Resolved (r : Response F).
Arguments Rejected {F} error.
Arguments Resolved {F} r.

(** *** Effect log with exceptions *)

Section Monad.
Context {E : Type}.

Definition M (A : Type) : Type := (list E * completion A)%type.

Definition ret {A} (a : A) : M A := ([], Ok a).

Definition throw {A} (error : string) : M A := ([], Thrown error).

Definition emit (e : E) : M unit := ([e], Ok tt).

Definition bind {A B} (m : M A) (k : A -> M B) : M B :=
  match m with
  | (l, Ok a) => let (l', r) := k a in (l ++ l', r)
  | (l, Thrown error) => (l, Thrown error)
  end.

(** [try { m } catch (error) { handler error }] *)
Definition try_catch {A} (m : M A) (handler : string -> M A) : M A :=
  match m with
  | (l, Thrown error) => let (l', r) := handler error in (l ++ l', r)
  | (l, Ok a) => (l, Ok a)
  end.

(** [try { m } finally { f }]: [f] always runs; its own exception, if
    any, replaces the completion of [m]. *)
Definition try_finally {A} (m : M A) (f : M unit) : M A :=
  match m, f with
  | (l, r), (l', Ok _) => (l ++ l', r)
  | (l, _), (l', Thrown error) => (l ++ l', Thrown error)
  end.

Definition effects {A} (m : M A) : list E := fst m.
Definition outcome {A} (m : M A) : completion A := snd m.
End Monad.
Arguments M E A : clear implicits.

Declare Scope js_scope.
Delimit Scope js_scope with js.
Notation "x <- m ;; k" := (bind m (fun x => k))
  (at level 100, m at next level, right associativity) : js_scope.
Notation "m ;; k" := (bind m (fun _ => k))
  (at level 100, right associativity) : js_scope.

(** [target.set(source, offset)] on a [Uint8Array]: a [RangeError] when the
    source does not fit. *)
Definition Uint8Array_set {E} (target source : list byte) (offset : nat)
  : M E (list byte) :=
  if length target <? offset + length source
  then throw "RangeError: offset is out of bounds"
  else ret (firstn offset target ++ source
            ++ skipn (offset + length source) target).

(** The lengths [new Array(len)] accepts: below 2^32.  [undefined] is not a
    length and is accepted as the single element of the array. *)
Definition array_length_ok (arg : option nat) : Prop :=
  match arg with
  | Some len => (N.of_nat len < 4294967296)%N
  | None => True
  end.

(** [new Array(arg)] with its check: a [RangeError] for a length that is not
    below 2^32. *)
Definition new_Array_checked {E} (arg : option nat) : M E (list slot) :=
  match arg with
  | Some len =>
      if (N.of_nat len <? 4294967296)%N
      then ret (new_Array arg)
      else throw "RangeError: Invalid array length"
  | None => ret (new_Array arg)
  end.

End JS.
Import JS.
Open Scope js_scope.

(* ================================================================== *)
(** ** The segmented page (DFSPage) *)

Module DFSPage.

(** [interface FileRecord].  [total_chunks] is declared a number, but the
    records arrive unvalidated from [data.files]; a record without the
    field reads [undefined] ([None]). *)
Record FileRecord : Type :=
  { id : Z;
    filename : string;
    file_hash : string;
    file_size : Z;
    total_chunks : option nat;
    created_at : string }.

(** The [useState] cells of the component. *)
Record State : Type :=
  { fileList : list FileRecord;
    selectedFile : option File;
    uploading : bool;
    downloadProgress : list slot;
    downloadingFile : option FileRecord;
    downloadTime : option Z;
    errorMessage : string }.

Definition initial : State :=
  {| fileList := [];
     selectedFile := None;
     uploading := false;
     downloadProgress := [];
     downloadingFile := None;
     downloadTime := None;
     errorMessage := "" |}.

(** Effects of a handler: a browser call, or a call of a state setter. *)
Inductive effect : Type :=
| Browser (e : event)
| setFileList (l : list FileRecord)
| setSelectedFile (f : option File)
| setUploading (b : bool)
| setDownloadProgress (a : list slot)
| setDownloadingFile (r : option FileRecord)
| setDownloadTime (t : option Z)
| setErrorMessage (m : string).

(** What a setter call does to the state. *)
Definition apply (s : State) (e : effect) : State :=
  match e with
  | Browser _ => s
  | setFileList l =>
      {| fileList := l; selectedFile := selectedFile s;
         uploading := uploading s; downloadProgress := downloadProgress s;
         downloadingFile := downloadingFile s;
         downloadTime := downloadTime s; errorMessage := errorMessage s |}
  | setSelectedFile f =>
      {| fileList := fileList s; selectedFile := f;
         uploading := uploading s; downloadProgress := downloadProgress s;
         downloadingFile := downloadingFile s;
         downloadTime := downloadTime s; errorMessage := errorMessage s |}
  | setUploading b =>
      {| fileList := fileList s; selectedFile := selectedFile s;
         uploading := b; downloadProgress := downloadProgress s;
         downloadingFile := downloadingFile s;
         downloadTime := downloadTime s; errorMessage := errorMessage s |}
  | setDownloadProgress a =>
      {| fileList := fileList s; selectedFile := selectedFile s;
         uploading := uploading s; downloadProgress := a;
         downloadingFile := downloadingFile s;
         downloadTime := downloadTime s; errorMessage := errorMessage s |}
  | setDownloadingFile r =>
      {| fileList := fileList s; selectedFile := selectedFile s;
         uploading := uploading s; downloadProgress := downloadProgress s;
         downloadingFile := r;
         downloadTime := downloadTime s; errorMessage := errorMessage s |}
  | setDownloadTime t =>
      {| fileList := fileList s; selectedFile := selectedFile s;
         uploading := uploading s; downloadProgress := downloadProgress s;
         downloadingFile := downloadingFile s;
         downloadTime := t; errorMessage := errorMessage s |}
  | setErrorMessage m =>
      {| fileList := fileList s; selectedFile := selectedFile s;
         uploading := uploading s; downloadProgress := downloadProgress s;
         downloadingFile := downloadingFile s;
         downloadTime := downloadTime s; errorMessage := m |}
  end.

(** The state once every setter call of a log has taken effect. *)
Definition replay (log : list effect) (s : State) : State :=
  fold_left apply log s.

(** The requests, progress arrays and blobs found in a log. *)
Definition requests (log : list effect) : list event :=
  flat_map (fun e => match e with
                     | Browser (Fetch m u f) => [Fetch m u f]
                     | _ => []
                     end) log.

Definition progress_updates (log : list effect) : list (list slot) :=
  flat_map (fun e => match e with
                     | setDownloadProgress a => [a]
                     | _ => []
                     end) log.

Definition browser_calls (log : list effect) : list event :=
  flat_map (fun e => match e with
                     | Browser ev => [ev]
                     | _ => []
                     end) log.

Section Handlers.
(** [process.env.NEXT_PUBLIC_BACKEND_URL] *)
Variable NEXT_PUBLIC_BACKEND_URL : option string.

Definition backendUrl : string :=
  string_or_else NEXT_PUBLIC_BACKEND_URL
    "https://tender-energy-production.up.railway.app".

(** [await fetch(url, {method, body})] with the answer of the network. *)
Definition fetch (method url : string) (form_file : option File)
           (answer : FetchResult FileRecord)
  : M effect (Response FileRecord) :=
  emit (Browser (Fetch method url form_file)) ;;
  match answer with
  | Rejected error => throw error
  | Resolved r => ret r
  end.

(** [await res.json()] *)
Definition res_json (res : Response FileRecord)
  : M effect (JsonData FileRecord) :=
  match json res with
  | Some data => ret data
  | None => throw "SyntaxError: invalid JSON"
  end.

Definition fetchFiles (list_answer : FetchResult FileRecord)
  : M effect unit :=
  try_catch
    (res <- fetch "GET" (backendUrl ++ "/list")%string None list_answer ;;
     (if negb (ok res) then throw "Failed to fetch file list" else ret tt) ;;
     data <- res_json res ;;
     emit (setFileList (files data)))
    (fun error =>
       emit (Browser (ConsoleError error)) ;;
       emit (setErrorMessage "Error fetching file list")).

(** [render] is the state captured by the closure of the handler. *)
Definition handleUploadSubmit (render : State)
           (upload_answer list_answer : FetchResult FileRecord)
  : M effect unit :=
  emit (Browser PreventDefault) ;;
  match selectedFile render with
  | None => ret tt
  | Some file =>
      emit (setUploading true) ;;
      emit (setErrorMessage "") ;;
      try_finally
        (try_catch
           (res <- fetch "POST" (backendUrl ++ "/upload")%string
                         (Some file) upload_answer ;;
            (if negb (ok res) then throw "Upload failed" else ret tt) ;;
            data <- res_json res ;;
            emit (Browser (ConsoleLog "Upload successful")) ;;
            emit (setSelectedFile None) ;;
            fetchFiles list_answer)
           (fun error =>
              emit (Browser (ConsoleError error)) ;;
              emit (setErrorMessage "Upload failed")))
        (emit (setUploading false))
  end.

Definition handleDelete (fileId : Z)
           (delete_answer list_answer : FetchResult FileRecord)
  : M effect unit :=
  emit (setErrorMessage "") ;;
  try_catch
    (res <- fetch "DELETE"
                  (backendUrl ++ "/delete?file_id="
                              ++ String_of_number fileId)%string
                  None delete_answer ;;
     (if negb (ok res) then throw "Delete failed" else ret tt) ;;
     data <- res_json res ;;
     emit (Browser (ConsoleLog "Delete successful")) ;;
     fetchFiles list_answer)
    (fun error =>
       emit (Browser (ConsoleError error)) ;;
       emit (setErrorMessage "Delete failed")).

(** *** Download *)

(** [Math.min(100, (received / totalSize) * 100)] *)
Definition overallProgress (received totalSize : nat) : Q :=
  Qmin 100 (inject_Z (Z.of_nat received) / inject_Z (Z.of_nat totalSize)
            * 100).

(** [Number(response.headers.get('Content-Length')) || 1] *)
Definition totalSize (response : Response FileRecord) : nat :=
  or_else (Number (content_length response)) 1.

(** [for (let i = 0; i < totalChunks; i++) newProgress[i] = v], started
    at index [i]; [fuel] bounds the iterations still to do. *)
Fixpoint distribute (fuel : nat) (totalChunks : option nat) (i : nat)
         (v : Q) (newProgress : list slot) : list slot :=
  match fuel with
  | O => newProgress
  | S fuel' =>
      if lt_number i totalChunks
      then distribute fuel' totalChunks (S i) v (array_store newProgress i v)
      else newProgress
  end.

(** The loop runs [totalChunks] times at most. *)
Definition distribute_all (totalChunks : option nat) (v : Q)
           (newProgress : list slot) : list slot :=
  distribute (Number totalChunks) totalChunks 0 v newProgress.

(** The [while (true)] loop over the reads of the stream.  [captured] is
    the [downloadProgress] of the closure. *)
Fixpoint read_loop (captured : list slot) (totalChunks : option nat)
         (totalSize : nat) (reads : list (option (list byte)))
         (ending : stream_end) (chunks : list (list byte)) (received : nat)
  : M effect (list (list byte) * nat) :=
  match reads with
  | [] =>
      match ending with
      | Done => ret (chunks, received)
      | ReadFails error => throw error
      end
  | None :: rest =>
      read_loop captured totalChunks totalSize rest ending chunks received
  | Some value :: rest =>
      let chunks := chunks ++ [value] in
      let received := received + length value in
      let overall := overallProgress received totalSize in
      let newProgress :=
        distribute_all totalChunks (Qmin 100 overall) (slice captured) in
      emit (setDownloadProgress newProgress) ;;
      read_loop captured totalChunks totalSize rest ending chunks received
  end.

(** [for (const chunk of chunks) { mergedBuffer.set(chunk, offset);
    offset += chunk.length }] *)
Fixpoint merge_loop (chunks : list (list byte)) (mergedBuffer : list byte)
         (offset : nat) : M effect (list byte) :=
  match chunks with
  | [] => ret mergedBuffer
  | chunk :: rest =>
      mergedBuffer <- Uint8Array_set mergedBuffer chunk offset ;;
      merge_loop rest mergedBuffer (offset + length chunk)
  end.

(** What the browser answers during one download. *)
Record DownloadWorld : Type :=
  { startTime : Z;
    endTime : Z;
    download_answer : FetchResult FileRecord;
    objectURL : string }.

(** The handler for a record whose chunk count [new Array] accepts: the
    allocation of line 82 is taken to succeed.  [handleDownload_checked]
    below is the handler on every record. *)
Definition handleDownload (render : State) (fileRecord : FileRecord)
           (w : DownloadWorld) : M effect unit :=
  emit (setDownloadingFile (Some fileRecord)) ;;
  let totalChunks := total_chunks fileRecord in
  emit (setDownloadProgress (fill (new_Array totalChunks) 0)) ;;
  emit (setDownloadTime None) ;;
  emit (setErrorMessage "") ;;
  try_finally
    (try_catch
       (response <- fetch "GET"
                          (backendUrl ++ "/download?file_id="
                                      ++ String_of_number (id fileRecord))%string
                          None (download_answer w) ;;
        match body response with
        | None => throw "No response body for download"
        | Some reader =>
            let totalSize := totalSize response in
            read <-
              read_loop (downloadProgress render) totalChunks totalSize
                        (segments reader) (ending reader) [] 0 ;;
            let '(chunks, received) := read in
            emit (setDownloadTime (Some (endTime w - startTime w)%Z)) ;;
            mergedBuffer <- merge_loop chunks (new_Uint8Array received) 0 ;;
            emit (Browser (NewBlob mergedBuffer)) ;;
            let url := objectURL w in
            emit (Browser (CreateObjectURL mergedBuffer url)) ;;
            emit (Browser (CreateElement "a")) ;;
            emit (Browser (SetHref url)) ;;
            emit (Browser (SetDownload (filename fileRecord))) ;;
            emit (Browser AppendChild) ;;
            emit (Browser Click) ;;
            emit (Browser Remove)
        end)
       (fun error =>
          emit (Browser (ConsoleError error)) ;;
          emit (setErrorMessage "Download failed")))
    (emit (setDownloadingFile None) ;;
     emit (setDownloadProgress [])).

(** [handleDownload] on every record: [new Array(totalChunks)] of line 82
    stands before the [try], so its [RangeError] leaves the handler
    unhandled, after [setDownloadingFile(fileRecord)] and before anything
    else. *)
Definition handleDownload_checked (render : State) (fileRecord : FileRecord)
           (w : DownloadWorld) : M effect unit :=
  emit (setDownloadingFile (Some fileRecord)) ;;
  let totalChunks := total_chunks fileRecord in
  allocated <- new_Array_checked totalChunks ;;
  emit (setDownloadProgress (fill allocated 0)) ;;
  emit (setDownloadTime None) ;;
  emit (setErrorMessage "") ;;
  try_finally
    (try_catch
       (response <- fetch "GET"
                          (backendUrl ++ "/download?file_id="
                                      ++ String_of_number (id fileRecord))%string
                          None (download_answer w) ;;
        match body response with
        | None => throw "No response body for download"
        | Some reader =>
            let totalSize := totalSize response in
            read <-
              read_loop (downloadProgress render) totalChunks totalSize
                        (segments reader) (ending reader) [] 0 ;;
            let '(chunks, received) := read in
            emit (setDownloadTime (Some (endTime w - startTime w)%Z)) ;;
            mergedBuffer <- merge_loop chunks (new_Uint8Array received) 0 ;;
            emit (Browser (NewBlob mergedBuffer)) ;;
            let url := objectURL w in
            emit (Browser (CreateObjectURL mergedBuffer url)) ;;
            emit (Browser (CreateElement "a")) ;;
            emit (Browser (SetHref url)) ;;
            emit (Browser (SetDownload (filename fileRecord))) ;;
            emit (Browser AppendChild) ;;
            emit (Browser Click) ;;
            emit (Browser Remove)
        end)
       (fun error =>
          emit (Browser (ConsoleError error)) ;;
          emit (setErrorMessage "Download failed")))
    (emit (setDownloadingFile None) ;;
     emit (setDownloadProgress [])).

(** [handleFileChange]: [files] is [e.target.files], [null] or a list of
    files. *)
Definition handleFileChange (files : option (list File)) : M effect unit :=
  match files with
  | Some chosen =>
      if 0 <? length chosen
      then emit (setSelectedFile (nth_error chosen 0))
      else ret tt
  | None => ret tt
  end.

(** The effect run once after the first render: [useEffect(() => {
    fetchFiles(); }, [])]. *)
Definition useEffect_mount (list_answer : FetchResult FileRecord)
  : M effect unit :=
  fetchFiles list_answer.
End Handlers.

End DFSPage.

(* ================================================================== *)
(** ** The whole-file page (NoDFSPage, frontend/app/nodfs/page.tsx) *)

Module NoDFSPage.

(** [interface NoDFSFile] *)
Record NoDFSFile : Type :=
  { id : Z;
    filename : string;
    file_hash : string;
    file_size : Z;
    created_at : string }.

Record State : Type :=
  { fileList : list NoDFSFile;
    selectedFile : option File;
    uploading : bool;
    downloadTime : option Z;
    errorMessage : string }.

Definition initial : State :=
  {| fileList := [];
     selectedFile := None;
     uploading := false;
     downloadTime := None;
     errorMessage := "" |}.

Inductive effect : Type :=
| Browser (e : event)
| setFileList (l : list NoDFSFile)
| setSelectedFile (f : option File)
| setUploading (b : bool)
| setDownloadTime (t : option Z)
| setErrorMessage (m : string).

Definition apply (s : State) (e : effect) : State :=
  match e with
  | Browser _ => s
  | setFileList l =>
      {| fileList := l; selectedFile := selectedFile s;
         uploading := uploading s;
         downloadTime := downloadTime s; errorMessage := errorMessage s |}
  | setSelectedFile f =>
      {| fileList := fileList s; selectedFile := f;
         uploading := uploading s;
         downloadTime := downloadTime s; errorMessage := errorMessage s |}
  | setUploading b =>
      {| fileList := fileList s; selectedFile := selectedFile s;
         uploading := b;
         downloadTime := downloadTime s; errorMessage := errorMessage s |}
  | setDownloadTime t =>
      {| fileList := fileList s; selectedFile := selectedFile s;
         uploading := uploading s;
         downloadTime := t; errorMessage := errorMessage s |}
  | setErrorMessage m =>
      {| fileList := fileList s; selectedFile := selectedFile s;
         uploading := uploading s;
         downloadTime := downloadTime s; errorMessage := m |}
  end.

Definition replay (log : list effect) (s : State) : State :=
  fold_left apply log s.

Definition requests (log : list effect) : list event :=
  flat_map (fun e => match e with
                     | Browser (Fetch m u f) => [Fetch m u f]
                     | _ => []
                     end) log.

Definition browser_calls (log : list effect) : list event :=
  flat_map (fun e => match e with
                     | Browser ev => [ev]
                     | _ => []
                     end) log.

Section Handlers.
Variable NEXT_PUBLIC_BACKEND_URL : option string.

Definition backendUrl : string :=
  string_or_else NEXT_PUBLIC_BACKEND_URL
    "https://your-nodfs-service.up.railway.app".

Definition fetch (method url : string) (form_file : option File)
           (answer : FetchResult NoDFSFile)
  : M effect (Response NoDFSFile) :=
  emit (Browser (Fetch method url form_file)) ;;
  match answer with
  | Rejected error => throw error
  | Resolved r => ret r
  end.

Definition res_json (res : Response NoDFSFile)
  : M effect (JsonData NoDFSFile) :=
  match json res with
  | Some data => ret data
  | None => throw "SyntaxError: invalid JSON"
  end.

(** [await res.blob()] *)
Definition res_blob (res : Response NoDFSFile) : M effect (list byte) :=
  match blob res with
  | Some b => ret b
  | None => throw "TypeError: failed to read the body"
  end.

Definition fetchFiles (list_answer : FetchResult NoDFSFile)
  : M effect unit :=
  try_catch
    (res <- fetch "GET" (backendUrl ++ "/list_nodfs")%string None
                  list_answer ;;
     (if negb (ok res) then throw "Failed to fetch file list" else ret tt) ;;
     data <- res_json res ;;
     emit (setFileList (files data)))
    (fun error =>
       emit (Browser (ConsoleError error)) ;;
       emit (setErrorMessage "Error fetching file list")).

Definition handleUploadSubmit (render : State)
           (upload_answer list_answer : FetchResult NoDFSFile)
  : M effect unit :=
  emit (Browser PreventDefault) ;;
  match selectedFile render with
  | None => ret tt
  | Some file =>
      emit (setUploading true) ;;
      emit (setErrorMessage "") ;;
      try_finally
        (try_catch
           (res <- fetch "POST" (backendUrl ++ "/upload_nodfs")%string
                         (Some file) upload_answer ;;
            (if negb (ok res) then throw "Upload failed" else ret tt) ;;
            data <- res_json res ;;
            emit (Browser (ConsoleLog "Upload successful")) ;;
            emit (setSelectedFile None) ;;
            fetchFiles list_answer)
           (fun error =>
              emit (Browser (ConsoleError error)) ;;
              emit (setErrorMessage "Upload failed")))
        (emit (setUploading false))
  end.

Record DownloadWorld : Type :=
  { startTime : Z;
    endTime : Z;
    download_answer : FetchResult NoDFSFile;
    objectURL : string }.

Definition handleDownload (file : NoDFSFile) (w : DownloadWorld)
  : M effect unit :=
  emit (setErrorMessage "") ;;
  try_catch
    (res <- fetch "GET"
                  (backendUrl ++ "/download_nodfs?file_id="
                              ++ String_of_number (id file))%string
                  None (download_answer w) ;;
     match body res with
     | None => throw "No response body for download"
     | Some _ =>
         blob <- res_blob res ;;
         emit (setDownloadTime (Some (endTime w - startTime w)%Z)) ;;
         let url := objectURL w in
         emit (Browser (CreateObjectURL blob url)) ;;
         emit (Browser (CreateElement "a")) ;;
         emit (Browser (SetHref url)) ;;
         emit (Browser (SetDownload (filename file))) ;;
         emit (Browser AppendChild) ;;
         emit (Browser Click) ;;
         emit (Browser Remove)
     end)
    (fun error =>
       emit (Browser (ConsoleError error)) ;;
       emit (setErrorMessage "Download failed")).

Definition handleDelete (fileId : Z)
           (delete_answer list_answer : FetchResult NoDFSFile)
  : M effect unit :=
  emit (setErrorMessage "") ;;
  try_catch
    (res <- fetch "DELETE"
                  (backendUrl ++ "/delete_nodfs?file_id="
                              ++ String_of_number fileId)%string
                  None delete_answer ;;
     (if negb (ok res) then throw "Delete failed" else ret tt) ;;
     data <- res_json res ;;
     emit (Browser (ConsoleLog "Delete successful")) ;;
     fetchFiles list_answer)
    (fun error =>
       emit (Browser (ConsoleError error)) ;;
       emit (setErrorMessage "Delete failed")).
(** [handleFileChange]: selects [files[0]] when there is one. *)
Definition handleFileChange (files : option (list File)) : M effect unit :=
  match files with
  | Some chosen =>
      match nth_error chosen 0 with
      | Some file => emit (setSelectedFile (Some file))
      | None => ret tt
      end
  | None => ret tt
  end.

Definition useEffect_mount (list_answer : FetchResult NoDFSFile)
  : M effect unit :=
  fetchFiles list_answer.
End Handlers.

End NoDFSPage.

(* ================================================================== *)
(** ** Auxiliary notions used to state the properties *)

(** The segments a stream delivers with a value, in arrival order. *)
Definition delivered (reads : list (option (list byte))) : list (list byte) :=
  flat_map (fun v => match v with Some value => [value] | None => [] end) reads.

(** The running byte counts after each delivered segment, starting from
    [received]. *)
Fixpoint received_counts (reads : list (option (list byte))) (received : nat)
  : list nat :=
  match reads with
  | [] => []
  | None :: rest => received_counts rest received
  | Some value :: rest =>
      (received + length value) :: received_counts rest (received + length value)
  end.


(** The values slot [i] takes along a sequence of progress arrays (arrays
    without a number in slot [i] contribute nothing). *)
Definition slot_history (i : nat) (arrays : list (list slot)) : list Q :=
  flat_map (fun a => match nth_error a i with
                     | Some (Some q) => [q]
                     | _ => []
                     end) arrays.

(** A download attempt fails when the request is rejected, the response has
    no body, or a read of the stream is rejected. *)
Definition download_fails (answer : FetchResult DFSPage.FileRecord) : Prop :=
  match answer with
  | Rejected _ => True
  | Resolved r =>
      match body r with
      | None => True
      | Some reader => ending reader <> Done
      end
  end.

(** A request succeeds when it resolves with an [ok] response whose body
    parses as JSON. *)
Definition succeeds {F} (answer : FetchResult F) : Prop :=
  exists r data, answer = Resolved r /\ ok r = true /\ json r = Some data.

(** The progress arrays written by the read loop of one download, given the
    array captured by the closure. *)
Definition loop_updates (captured : list slot) (totalChunks : option nat)
           (totalSize : nat) (reads : list (option (list byte)))
  : list (list slot) :=
  map (fun r => DFSPage.distribute_all totalChunks
                  (Qmin 100 (DFSPage.overallProgress r totalSize))
                  (slice captured))
      (received_counts reads 0).

(** What every download of the segmented page starts with. *)
Definition opening (env : option string) (fileRecord : DFSPage.FileRecord)
  : list DFSPage.effect :=
  [ DFSPage.setDownloadingFile (Some fileRecord);
    DFSPage.setDownloadProgress
      (fill (new_Array (DFSPage.total_chunks fileRecord)) 0);
    DFSPage.setDownloadTime None;
    DFSPage.setErrorMessage "";
    DFSPage.Browser
      (Fetch "GET"
         (DFSPage.backendUrl env ++ "/download?file_id="
            ++ String_of_number (DFSPage.id fileRecord))%string
         None) ].

(** Its [finally] block. *)
Definition cleanup : list DFSPage.effect :=
  [ DFSPage.setDownloadingFile None; DFSPage.setDownloadProgress [] ].

(** The calls that hand an object URL to the save-as flow of the browser. *)
Definition anchor_calls (url name : string) : list event :=
  [ CreateElement "a"; SetHref url; SetDownload name; AppendChild; Click;
    Remove ].




(** *** Sample inputs *)

Definition sample_record (chunks : option nat) : DFSPage.FileRecord :=
  {| DFSPage.id := 7;
     DFSPage.filename := "report.bin";
     DFSPage.file_hash := "9f2c";
     DFSPage.file_size := 4;
     DFSPage.total_chunks := chunks;
     DFSPage.created_at := "2025-01-01" |}.

Definition sample_file : NoDFSPage.NoDFSFile :=
  {| NoDFSPage.id := 7;
     NoDFSPage.filename := "report.bin";
     NoDFSPage.file_hash := "9f2c";
     NoDFSPage.file_size := 4;
     NoDFSPage.created_at := "2025-01-01" |}.

Definition sample_upload : File :=
  {| file_name := "notes.txt"; file_content := [x68; x69] |}.

(** An [ok] response streaming [reads] under the given length header. *)
Definition streamed {F} (header : option nat) (reads : list (option (list byte)))
           (ending : stream_end) : Response F :=
  {| ok := true;
     content_length := header;
     body := Some {| segments := reads; ending := ending |};
     json := None;
     blob := Some (concat (delivered reads)) |}.

(** A response with a JSON body and the given status. *)
Definition answered {F} (status_ok : bool) (listing : list F) : Response F :=
  {| ok := status_ok;
     content_length := None;
     body := None;
     json := Some {| files := listing |};
     blob := None |}.

Definition sample_world (answer : FetchResult DFSPage.FileRecord)
  : DFSPage.DownloadWorld :=
  {| DFSPage.startTime := 1000;
     DFSPage.endTime := 1250;
     DFSPage.download_answer := answer;
     DFSPage.objectURL := "blob:1" |}.

Definition sample_world_nodfs (answer : FetchResult NoDFSPage.NoDFSFile)
  : NoDFSPage.DownloadWorld :=
  {| NoDFSPage.startTime := 1000;
     NoDFSPage.endTime := 1250;
     NoDFSPage.download_answer := answer;
     NoDFSPage.objectURL := "blob:1" |}.

(** *** Notions for the further properties *)

(** A download attempt of the whole-file page fails when the request is
    rejected, the response has no body, or reading the blob is rejected. *)
Definition download_fails_nodfs (answer : FetchResult NoDFSPage.NoDFSFile)
  : Prop :=
  match answer with
  | Rejected _ => True
  | Resolved r => body r = None \/ blob r = None
  end.

(** The same response under another status. *)
Definition with_status {F} (status_ok : bool) (r : Response F) : Response F :=
  {| ok := status_ok;
     content_length := content_length r;
     body := body r;
     json := json r;
     blob := blob r |}.

(** A response with the given status whose body cannot be read: no stream,
    no JSON, no blob (a 204 No Content, for one). *)
Definition unreadable {F} (status_ok : bool) : Response F :=
  {| ok := status_ok;
     content_length := None;
     body := None;
     json := None;
     blob := None |}.

(** The request that lists the files of the segmented page. *)
Definition list_request (env : option string) : event :=
  Fetch "GET" (DFSPage.backendUrl env ++ "/list")%string None.

(** A record whose chunk count is 2^32, the first length [new Array]
    refuses. *)
Definition oversized_record : DFSPage.FileRecord :=
  {| DFSPage.id := 7;
     DFSPage.filename := "report.bin";
     DFSPage.file_hash := "9f2c";
     DFSPage.file_size := 4;
     DFSPage.total_chunks := Some (N.to_nat 4294967296);
     DFSPage.created_at := "2025-01-01" |}.

(** A request addressed to a path under [base]. *)
Definition request_to (base : string) (e : event) : Prop :=
  exists method path form_file,
    e = Fetch method (base ++ path)%string form_file.

(** A slot holding a percentage between 0 and 100. *)
Definition percentage (s : slot) : Prop :=
  exists q, s = Some q /\ (0 <= q)%Q /\ (q <= 100)%Q.

(** A setter call that marks a record as being downloaded. *)
Definition activates (e : DFSPage.effect) : Prop :=
  match e with
  | DFSPage.setDownloadingFile (Some _) => True
  | _ => False
  end.

(** *** Tactics for the answers of the network *)

(** [destruct_answer a] splits a fetch answer into rejected, not ok,
    unparsable and successful. *)
Ltac destruct_answer a :=
  let error := fresh "error" in
  let status := fresh "status" in
  let header := fresh "header" in
  let stream := fresh "stream" in
  let data := fresh "data" in
  let bytes := fresh "bytes" in
  destruct a as [error|[[|] header stream [data|] bytes]].

(** Closes a case where the answer is a success although it is assumed not
    to be one. *)
Ltac contradict_failure H :=
  solve [ exfalso; apply H; unfold succeeds;
          eexists; eexists; split; [reflexivity|split; reflexivity] ].

(** Opens an assumed success of a concrete answer. *)
Ltac inspect_succeeds H :=
  let r := fresh "r" in
  let data := fresh "data" in
  let Hr := fresh "Hr" in
  let Hok := fresh "Hok" in
  let Hjson := fresh "Hjson" in
  destruct H as [r [data [Hr [Hok Hjson]]]];
  try discriminate Hr;
  try (injection Hr as <-; simpl in Hok, Hjson; try discriminate).

(** [solve_requests] proves that each request of an explicit list goes to a
    path under the base address. *)
Ltac solve_requests :=
  repeat (first [ apply Forall_nil
                | apply Forall_cons;
                  [ unfold request_to; eexists; eexists; eexists; reflexivity
                  | ] ]).

(* ================================================================== *)
(** ** Reassembly of the stream *)

Section Reassembly.
Import DFSPage.

Lemma firstn_length_app {A} (l1 l2 : list A) :
  firstn (length l1) (l1 ++ l2) = l1.
Proof.
  rewrite firstn_app, firstn_all, Nat.sub_diag. simpl. apply app_nil_r.
Qed.

Lemma skipn_length_app_add {A} (l1 l2 : list A) (k : nat) :
  skipn (length l1 + k) (l1 ++ l2) = skipn k l2.
Proof.
  rewrite skipn_app, skipn_all2 by lia. simpl. f_equal. lia.
Qed.

Lemma Uint8Array_set_fits (target source : list byte) (offset : nat) :
  offset + length source <= length target ->
  @Uint8Array_set effect target source offset =
  ([], Ok (firstn offset target ++ source
           ++ skipn (offset + length source) target)).
Proof.
  intros Hfit. unfold Uint8Array_set.
  destruct (Nat.ltb_spec (length target) (offset + length source)) as [Hlt|_].
  - lia.
  - reflexivity.
Qed.

(** Invariant of the merge loop: the bytes before [offset] are in place,
    the chunks still to copy fit behind them. *)
Lemma merge_loop_invariant (chunks : list (list byte)) :
  forall (mergedBuffer : list byte) (offset : nat),
    offset + length (concat chunks) <= length mergedBuffer ->
    merge_loop chunks mergedBuffer offset =
    ([], Ok (firstn offset mergedBuffer ++ concat chunks
             ++ skipn (offset + length (concat chunks)) mergedBuffer)).
Proof.
  induction chunks as [|chunk rest IH]; intros buf offset Hfit.
  - simpl. rewrite Nat.add_0_r, firstn_skipn. reflexivity.
  - simpl in Hfit |- *. rewrite length_app in Hfit.
    rewrite Uint8Array_set_fits by lia. simpl.
    rewrite IH.
    + simpl. do 2 f_equal.
      assert (Hpre : length (firstn offset buf) = offset)
        by (rewrite length_firstn; lia).
      set (pre := firstn offset buf) in *.
      set (post := skipn (offset + length chunk) buf).
      rewrite (app_assoc pre chunk post).
      replace (offset + length chunk) with (length (pre ++ chunk))
        by (rewrite length_app; lia).
      rewrite firstn_length_app, skipn_length_app_add.
      unfold post. rewrite skipn_skipn, length_app, <- !app_assoc.
      do 3 f_equal. f_equal. lia.
    + rewrite !length_app, length_firstn, length_skipn. lia.
Qed.

Lemma merge_loop_concat (chunks : list (list byte)) :
  merge_loop chunks (new_Uint8Array (length (concat chunks))) 0 =
  ([], Ok (concat chunks)).
Proof.
  rewrite merge_loop_invariant.
  - unfold new_Uint8Array. simpl.
    rewrite skipn_all2 by (rewrite repeat_length; lia).
    rewrite app_nil_r. reflexivity.
  - unfold new_Uint8Array. rewrite repeat_length. lia.
Qed.

(** The read loop on a stream that ends normally: one progress update per
    delivered segment; the chunks and the byte count it returns. *)
Lemma read_loop_done captured totalChunks totalSize reads :
  forall chunks received,
    read_loop captured totalChunks totalSize reads Done chunks received =
    (map (fun r => setDownloadProgress
                     (distribute_all totalChunks
                        (Qmin 100 (overallProgress r totalSize))
                        (slice captured)))
         (received_counts reads received),
     Ok (chunks ++ delivered reads,
         received + length (concat (delivered reads)))).
Proof.
  induction reads as [|[value|] rest IH]; intros chunks received; simpl.
  - rewrite app_nil_r, Nat.add_0_r. reflexivity.
  - rewrite IH. simpl. rewrite <- app_assoc, length_app. simpl.
    rewrite Nat.add_assoc. reflexivity.
  - apply IH.
Qed.

(** The read loop on a stream whose read is rejected: the same progress
    updates, then the exception. *)
Lemma read_loop_fails captured totalChunks totalSize reads error :
  forall chunks received,
    read_loop captured totalChunks totalSize reads (ReadFails error)
              chunks received =
    (map (fun r => setDownloadProgress
                     (distribute_all totalChunks
                        (Qmin 100 (overallProgress r totalSize))
                        (slice captured)))
         (received_counts reads received),
     Thrown error).
Proof.
  induction reads as [|[value|] rest IH]; intros chunks received; simpl.
  - reflexivity.
  - rewrite IH. reflexivity.
  - apply IH.
Qed.
End Reassembly.

(* ================================================================== *)
(** ** Laws of the effect log *)

Lemma bind_ret {E A B} (a : A) (k : A -> M E B) : bind (ret a) k = k a.
Proof. unfold bind, ret. destruct (k a) as [l r]. reflexivity. Qed.

Lemma bind_ext {E A B} (m : M E A) (k k' : A -> M E B) :
  (forall a, k a = k' a) -> bind m k = bind m k'.
Proof.
  intros Hext. destruct m as [l [a|error]]; simpl; [rewrite Hext|];
    reflexivity.
Qed.

(* ================================================================== *)
(** ** The shape of a download *)

Section DownloadShape.
Import DFSPage.
Variable env : option string.

Lemma handleDownload_completes render fileRecord w response reader :
  download_answer w = Resolved response ->
  body response = Some reader ->
  ending reader = Done ->
  handleDownload env render fileRecord w =
  (opening env fileRecord
     ++ map setDownloadProgress
          (loop_updates (downloadProgress render) (total_chunks fileRecord)
             (totalSize response) (segments reader))
     ++ [setDownloadTime (Some (endTime w - startTime w)%Z)]
     ++ map Browser
          (NewBlob (concat (delivered (segments reader)))
           :: CreateObjectURL (concat (delivered (segments reader)))
                (objectURL w)
           :: anchor_calls (objectURL w) (filename fileRecord))
     ++ cleanup,
   Ok tt).
Proof.
  intros Hanswer Hbody Hend.
  unfold handleDownload, fetch. rewrite Hanswer. simpl.
  rewrite Hbody, Hend, read_loop_done. simpl.
  rewrite merge_loop_concat. simpl.
  unfold loop_updates. rewrite map_map, <- !app_assoc. reflexivity.
Qed.

Lemma handleDownload_fails render fileRecord w :
  download_fails (download_answer w) ->
  exists totalSize reads error,
    handleDownload env render fileRecord w =
    (opening env fileRecord
       ++ map setDownloadProgress
            (loop_updates (downloadProgress render) (total_chunks fileRecord)
               totalSize reads)
       ++ [Browser (ConsoleError error); setErrorMessage "Download failed"]
       ++ cleanup,
     Ok tt).
Proof.
  unfold download_fails, handleDownload, fetch.
  destruct (download_answer w) as [error|response]; simpl.
  - intros _. exists 1, [], error. reflexivity.
  - destruct (body response) as [reader|]; simpl.
    + destruct (ending reader) as [|error] eqn:Hend; [congruence|]. intros _.
      rewrite read_loop_fails. simpl.
      exists (totalSize response), (segments reader), error.
      unfold loop_updates. rewrite map_map, <- !app_assoc. reflexivity.
    + intros _. exists 1, [], "No response body for download". reflexivity.
Qed.

(** Every attempt either fails or completes. *)
Lemma download_fails_or_completes w :
  download_fails (download_answer w) \/
  exists response reader,
    download_answer w = Resolved response /\
    body response = Some reader /\ ending reader = Done.
Proof.
  unfold download_fails.
  destruct (download_answer w) as [error|response]; [now left|].
  destruct (body response) as [reader|] eqn:Hbody; [|now left].
  destruct (ending reader) eqn:Hend.
  - right. eauto.
  - left. congruence.
Qed.

(** Once [new Array] accepts the chunk count, the handler on every record is
    the handler with the allocation taken to succeed. *)
Lemma handleDownload_checked_allocates render fileRecord w :
  array_length_ok (total_chunks fileRecord) ->
  handleDownload_checked env render fileRecord w
  = handleDownload env render fileRecord w.
Proof.
  intros Hlength. unfold handleDownload_checked, handleDownload.
  apply bind_ext. intros _.
  unfold new_Array_checked.
  destruct (total_chunks fileRecord) as [len|]; unfold array_length_ok in Hlength.
  - apply N.ltb_lt in Hlength. rewrite Hlength, bind_ret. reflexivity.
  - rewrite bind_ret. reflexivity.
Qed.

(** A chunk count from 2^32 on: the handler stops at the allocation, with the
    record marked active and the [RangeError] unhandled. *)
Lemma handleDownload_checked_refuses render fileRecord w len :
  total_chunks fileRecord = Some len ->
  (4294967296 <= N.of_nat len)%N ->
  handleDownload_checked env render fileRecord w
  = ([setDownloadingFile (Some fileRecord)],
     Thrown "RangeError: Invalid array length").
Proof.
  intros Hchunks Hlength. unfold handleDownload_checked, new_Array_checked.
  rewrite Hchunks. apply N.ltb_ge in Hlength. rewrite Hlength. reflexivity.
Qed.

Lemma array_length_cases (fileRecord : FileRecord) :
  array_length_ok (total_chunks fileRecord)
  \/ exists len,
       total_chunks fileRecord = Some len /\ (4294967296 <= N.of_nat len)%N.
Proof.
  destruct (total_chunks fileRecord) as [len|]; simpl; [|now left].
  destruct (N.lt_ge_cases (N.of_nat len) 4294967296) as [Hlt|Hge].
  - now left.
  - right. eauto.
Qed.
End DownloadShape.

(* ================================================================== *)
(** ** The progress estimate *)

Section Progress.
Import DFSPage.

Lemma replace_at_split (a : list slot) :
  forall i v, i < length a ->
    replace_at a i v = firstn i a ++ v :: skipn (S i) a.
Proof.
  induction a as [|h t IH]; intros [|i] v Hi; simpl in *; try lia.
  - reflexivity.
  - rewrite IH by lia. reflexivity.
Qed.

(** A store at an index up to the length: in range it replaces, at the
    length it appends; no hole appears. *)
Lemma array_store_upto (a : list slot) (i : nat) (v : Q) :
  i <= length a ->
  array_store a i v = firstn i a ++ Some v :: skipn (S i) a.
Proof.
  intros Hi. unfold array_store.
  destruct (Nat.ltb_spec i (length a)) as [Hlt|Hge].
  - apply replace_at_split. exact Hlt.
  - assert (i = length a) as -> by lia.
    rewrite Nat.sub_diag, firstn_all, skipn_all2 by lia. reflexivity.
Qed.

(** Invariant of the loop over the slots: slots below [i] are kept, the
    remaining [fuel] slots up to [n] are written. *)
Lemma distribute_invariant (n : nat) (v : Q) :
  forall fuel i a,
    i + fuel = n -> i <= length a ->
    distribute fuel (Some n) i v a =
    firstn i a ++ repeat (Some v) fuel ++ skipn n a.
Proof.
  induction fuel as [|fuel IH]; intros i a Hn Hi; simpl.
  - replace n with i by lia. rewrite firstn_skipn. reflexivity.
  - destruct (Nat.ltb_spec i n) as [_|Hge]; [|lia].
    rewrite array_store_upto by exact Hi.
    assert (Hpre : length (firstn i a) = i) by (rewrite length_firstn; lia).
    remember (skipn (S i) a) as rest eqn:Hrest.
    rewrite IH.
    + replace (S i) with (length (firstn i a) + 1) at 1 by lia.
      rewrite firstn_app_2. simpl. rewrite <- app_assoc. simpl.
      do 3 f_equal.
      replace n with (length (firstn i a) + S fuel) at 1 by lia.
      rewrite skipn_length_app_add, skipn_cons, Hrest, skipn_skipn.
      f_equal. lia.
    + lia.
    + rewrite length_app, Hpre. simpl. lia.
Qed.

Lemma distribute_all_Some (n : nat) (v : Q) (a : list slot) :
  distribute_all (Some n) v a = repeat (Some v) n ++ skipn n a.
Proof.
  unfold distribute_all. simpl.
  rewrite (distribute_invariant n v n 0 a) by lia. reflexivity.
Qed.

Lemma distribute_all_None (v : Q) (a : list slot) :
  distribute_all None v a = a.
Proof. reflexivity. Qed.

(** The fuel of [distribute_all] is enough: the loop has met its exit
    condition when the fuel is spent, and more fuel changes nothing. *)
Lemma distribute_exits (totalChunks : option nat) (v : Q) :
  forall fuel i a,
    lt_number i totalChunks = false ->
    distribute fuel totalChunks i v a = a.
Proof.
  intros [|fuel] i a Hexit; simpl; [|rewrite Hexit]; reflexivity.
Qed.

Lemma distribute_fuel_enough (totalChunks : option nat) (v : Q)
      (a : list slot) (extra : nat) :
  distribute (Number totalChunks + extra) totalChunks 0 v a =
  distribute_all totalChunks v a.
Proof.
  unfold distribute_all. destruct totalChunks as [n|]; simpl Number.
  - assert (Hgen : forall fuel i b,
               i + fuel = n ->
               distribute (fuel + extra) (Some n) i v b =
               distribute fuel (Some n) i v b).
    { induction fuel as [|fuel IH]; intros i b Hn.
      - simpl. apply distribute_exits. simpl.
        apply Nat.ltb_ge. lia.
      - simpl. destruct (Nat.ltb_spec i n) as [_|Hge]; [|lia].
        apply IH. lia. }
    apply Hgen. lia.
  - apply distribute_exits. reflexivity.
Qed.

(** [Math.min(100, x)] is 100 itself as soon as [x] reaches 100. *)
Lemma Qmin_100_full (x : Q) : (100 <= x)%Q -> Qmin 100 x = 100%Q.
Proof.
  intros Hx. unfold Qmin, GenericMinMax.gmin.
  destruct (100 ?= x)%Q eqn:Hcmp; try reflexivity.
  apply Qgt_alt in Hcmp. exfalso. apply (Qlt_not_le _ _ Hcmp). exact Hx.
Qed.

(** The second [Math.min(100, ...)] of the loop changes nothing. *)
Lemma Qmin_100_twice (x : Q) : Qmin 100 (Qmin 100 x) = Qmin 100 x.
Proof.
  unfold Qmin, GenericMinMax.gmin.
  destruct (100 ?= x)%Q eqn:Hcmp; try reflexivity.
  rewrite Hcmp. reflexivity.
Qed.

Lemma Qmin_100_overallProgress (received total : nat) :
  Qmin 100 (overallProgress received total) = overallProgress received total.
Proof. unfold overallProgress. apply Qmin_100_twice. Qed.


Lemma ratio_nonneg (received total : nat) :
  (0 <= inject_Z (Z.of_nat received) / inject_Z (Z.of_nat total) * 100)%Q.
Proof.
  apply Qmult_le_0_compat; [|discriminate].
  apply Qmult_le_0_compat.
  - change 0%Q with (inject_Z 0). rewrite <- Zle_Qle. lia.
  - apply Qinv_le_0_compat.
    change 0%Q with (inject_Z 0). rewrite <- Zle_Qle. lia.
Qed.

Lemma overallProgress_nonneg (received total : nat) :
  (0 <= overallProgress received total)%Q.
Proof.
  unfold overallProgress. apply Q.min_glb; [discriminate|apply ratio_nonneg].
Qed.

Lemma overallProgress_mono (r1 r2 total : nat) :
  r1 <= r2 ->
  (overallProgress r1 total <= overallProgress r2 total)%Q.
Proof.
  intros Hle. unfold overallProgress.
  apply Q.min_le_compat_l.
  apply Qmult_le_compat_r; [|discriminate].
  apply Qmult_le_compat_r.
  - rewrite <- Zle_Qle. lia.
  - apply Qinv_le_0_compat.
    change 0%Q with (inject_Z 0). rewrite <- Zle_Qle. lia.
Qed.

(** Once the bytes received reach the declared total the estimate is 100. *)
Lemma overallProgress_full (received total : nat) :
  1 <= total -> total <= received ->
  overallProgress received total = 100%Q.
Proof.
  intros Hpos Hle. unfold overallProgress. apply Qmin_100_full.
  assert (Ht : (0 < inject_Z (Z.of_nat total))%Q).
  { change 0%Q with (inject_Z 0). rewrite <- Zlt_Qlt. lia. }
  setoid_replace 100%Q with (1 * 100)%Q at 1 by reflexivity.
  apply Qmult_le_compat_r; [|discriminate].
  apply Qle_shift_div_l; [exact Ht|].
  rewrite Qmult_1_l, <- Zle_Qle. lia.
Qed.

(** Nothing received yet: the estimate is 0. *)
Lemma overallProgress_zero (total : nat) :
  (overallProgress 0 total == 0)%Q.
Proof.
  unfold overallProgress. simpl.
  rewrite Q.min_r.
  - unfold Qdiv. rewrite !Qmult_0_l. reflexivity.
  - unfold Qdiv. rewrite !Qmult_0_l. discriminate.
Qed.

Lemma received_counts_lower reads :
  forall received r, In r (received_counts reads received) -> received <= r.
Proof.
  induction reads as [|[value|] rest IH]; intros received r; simpl.
  - tauto.
  - intros [<-|Hin]; [lia|]. apply IH in Hin. lia.
  - apply IH.
Qed.

Lemma received_counts_sorted reads :
  forall received, StronglySorted le (received_counts reads received).
Proof.
  induction reads as [|[value|] rest IH]; intros received; simpl.
  - constructor.
  - constructor; [apply IH|].
    apply Forall_forall. intros r Hin.
    apply received_counts_lower in Hin. exact Hin.
  - apply IH.
Qed.

(** A monotone estimate turns sorted byte counts into sorted fractions. *)
Lemma sorted_fractions (f : nat -> Q) (counts : list nat) :
  (forall r1 r2, r1 <= r2 -> (f r1 <= f r2)%Q) ->
  StronglySorted le counts -> StronglySorted Qle (map f counts).
Proof.
  intros Hmono Hsorted.
  induction Hsorted as [|r rest Hrest IH Hall]; simpl; constructor.
  - exact IH.
  - apply Forall_forall. intros q Hq. apply in_map_iff in Hq.
    destruct Hq as [r' [<- Hin]]. apply Hmono.
    rewrite Forall_forall in Hall. apply Hall. exact Hin.
Qed.


End Progress.

(* ================================================================== *)
(** ** Reading a log *)

Section Logs.
Import DFSPage.

Lemma replay_app (l1 l2 : list effect) (s : State) :
  replay (l1 ++ l2) s = replay l2 (replay l1 s).
Proof. apply fold_left_app. Qed.

Lemma progress_updates_app (l1 l2 : list effect) :
  progress_updates (l1 ++ l2) = progress_updates l1 ++ progress_updates l2.
Proof. apply flat_map_app. Qed.

Lemma progress_updates_setters (arrays : list (list slot)) :
  progress_updates (map setDownloadProgress arrays) = arrays.
Proof.
  induction arrays as [|a rest IH]; simpl; [|rewrite IH]; reflexivity.
Qed.





(** Progress updates touch only the progress array. *)
Lemma replay_progress_only (arrays : list (list slot)) (s : State) :
  let s' := replay (map setDownloadProgress arrays) s in
  fileList s' = fileList s /\ selectedFile s' = selectedFile s /\
  uploading s' = uploading s /\ downloadingFile s' = downloadingFile s /\
  downloadTime s' = downloadTime s /\ errorMessage s' = errorMessage s.
Proof.
  revert s. induction arrays as [|a rest IH]; intros s; simpl.
  - repeat split.
  - specialize (IH (apply s (setDownloadProgress a))). simpl in IH.
    exact IH.
Qed.


Lemma slot_history_app (i : nat) (l1 l2 : list (list slot)) :
  slot_history i (l1 ++ l2) = slot_history i l1 ++ slot_history i l2.
Proof. apply flat_map_app. Qed.

(** The history of a written slot along the updates of the read loop. *)
Lemma slot_history_loop (i n : nat) captured total reads :
  i < n ->
  slot_history i (loop_updates captured (Some n) total reads) =
  map (fun r => overallProgress r total) (received_counts reads 0).
Proof.
  intros Hi. unfold loop_updates.
  induction (received_counts reads 0) as [|r rest IH]; simpl.
  - reflexivity.
  - rewrite IH, distribute_all_Some, Qmin_100_overallProgress.
    rewrite nth_error_app1 by (rewrite repeat_length; exact Hi).
    rewrite (nth_error_repeat _ Hi). reflexivity.
Qed.
End Logs.

(* ================================================================== *)
(** ** Properties of the download of the segmented page *)



(** C4: within one download, whatever the outcome, the values written to a
    chunk slot never decrease: the byte count only grows by the (non-negative)
    lengths of the arriving segments, and the estimate is monotone in it. *)
Theorem handleDownload_progress_monotone env render fileRecord w n i :
  DFSPage.total_chunks fileRecord = Some n ->
  i < n ->
  StronglySorted Qle
    (slot_history i
       (DFSPage.progress_updates
          (effects (DFSPage.handleDownload env render fileRecord w)))).
Proof.
  intros Hchunks Hi.
  assert (Hshape : forall total reads tail,
             DFSPage.progress_updates tail = [[]] ->
             StronglySorted Qle
               (slot_history i
                  (DFSPage.progress_updates
                     (opening env fileRecord
                        ++ map DFSPage.setDownloadProgress
                             (loop_updates (DFSPage.downloadProgress render)
                                (DFSPage.total_chunks fileRecord) total reads)
                        ++ tail)))).
  { intros total reads tail Htail.
    rewrite !progress_updates_app, progress_updates_setters, Htail.
    unfold opening. rewrite Hchunks. simpl DFSPage.progress_updates.
    rewrite !slot_history_app, slot_history_loop by exact Hi.
    unfold slot_history at 1 2. simpl flat_map.
    unfold fill. rewrite nth_error_map, nth_error_nil.
    rewrite (nth_error_repeat _ Hi). simpl. rewrite app_nil_r.
    constructor.
    - apply sorted_fractions.
      + intros r1 r2. apply overallProgress_mono.
      + apply received_counts_sorted.
    - apply Forall_forall. intros q Hq. apply in_map_iff in Hq.
      destruct Hq as [r [<- _]]. apply overallProgress_nonneg. }
  destruct (download_fails_or_completes w) as [Hfail|Hdone].
  - destruct (handleDownload_fails env render fileRecord w Hfail)
      as [total [reads [error ->]]].
    apply Hshape. reflexivity.
  - destruct Hdone as [response [reader [Hanswer [Hbody Hend]]]].
    rewrite (handleDownload_completes env render fileRecord w response reader)
      by assumption.
    apply Hshape. reflexivity.
Qed.

Lemma handleDownload_progress_monotone_witness :
  StronglySorted Qle [0; 200 # 4; 100]%Q.
Proof.
  apply (handleDownload_progress_monotone None DFSPage.initial
           (sample_record (Some 2))
           (sample_world
              (Resolved (streamed (Some 4)
                           [Some [x01; x02]; None; Some [x03; x04]] Done)))
           2 0).
  - reflexivity.
  - lia.
Defined.

(** C5, as amended: for a record whose chunk count is absent or a length
    [new Array] accepts (below 2^32), after every download attempt, completed
    or failed at the request, at the body or at any read of the stream, the
    handler returns normally, the active record is cleared and the progress
    array is empty; after a failed attempt the status message is the transfer
    failure. *)
Theorem handleDownload_checked_cleans_up env render current fileRecord w :
  array_length_ok (DFSPage.total_chunks fileRecord) ->
  let run := DFSPage.handleDownload_checked env render fileRecord w in
  let final := DFSPage.replay (effects run) current in
  outcome run = Ok tt
  /\ DFSPage.downloadingFile final = None
  /\ DFSPage.downloadProgress final = []
  /\ (download_fails (DFSPage.download_answer w) ->
      DFSPage.errorMessage final = "Download failed").
Proof.
  intros Hlength run final. subst final run.
  rewrite (handleDownload_checked_allocates env render fileRecord w Hlength).
  destruct (download_fails_or_completes w) as [Hfail|Hdone].
  - destruct (handleDownload_fails env render fileRecord w Hfail)
      as [total [reads [error ->]]].
    unfold effects, outcome, fst, snd.
    rewrite !replay_app. unfold cleanup. simpl. tauto.
  - destruct Hdone as [response [reader [Hanswer [Hbody Hend]]]].
    rewrite (handleDownload_completes env render fileRecord w response reader)
      by assumption.
    unfold effects, outcome, fst, snd.
    rewrite !replay_app. unfold cleanup. simpl.
    repeat split.
    unfold download_fails. rewrite Hanswer, Hbody, Hend. congruence.
Qed.

Lemma handleDownload_checked_cleans_up_witness :
  let busy :=
    {| DFSPage.fileList := [sample_record (Some 4)];
       DFSPage.selectedFile := None;
       DFSPage.uploading := false;
       DFSPage.downloadProgress := [Some 30; Some 30; Some 30; Some 30]%Q;
       DFSPage.downloadingFile := Some (sample_record (Some 4));
       DFSPage.downloadTime := None;
       DFSPage.errorMessage := "" |} in
  let w := sample_world
             (Resolved (streamed (Some 4) [Some [x01; x02]]
                          (ReadFails "network error"))) in
  let final :=
    DFSPage.replay
      (effects (DFSPage.handleDownload_checked None DFSPage.initial
                  (sample_record (Some 4)) w)) busy in
  DFSPage.downloadingFile final = None
  /\ DFSPage.downloadProgress final = []
  /\ DFSPage.errorMessage final = "Download failed".
Proof.
  intros busy w final.
  destruct (handleDownload_checked_cleans_up None DFSPage.initial busy
              (sample_record (Some 4)) w) as [_ [Hrecord [Hprogress Hmessage]]].
  - reflexivity.
  - split; [|split].
    + exact Hrecord.
    + exact Hprogress.
    + apply Hmessage. simpl. discriminate.
Defined.

Lemma oversized_length : (4294967296 <= N.of_nat (N.to_nat 4294967296))%N.
Proof. rewrite N2Nat.id. apply N.le_refl. Qed.

(** The handler on the record of 2^32 chunks. *)
Lemma oversized_record_refused env render w :
  DFSPage.handleDownload_checked env render oversized_record w
  = ([DFSPage.setDownloadingFile (Some oversized_record)],
     Thrown "RangeError: Invalid array length").
Proof.
  apply (handleDownload_checked_refuses env render oversized_record w
           (N.to_nat 4294967296) eq_refl oversized_length).
Qed.

(** C5 as stated fails: for a record of 2^32 chunks the [RangeError] of
    [new Array] leaves the handler unhandled, before any request, and the
    record stays marked as the active one. *)
Lemma handleDownload_checked_range_error_escapes :
  let run :=
    DFSPage.handleDownload_checked None DFSPage.initial oversized_record
      (sample_world
         (Resolved (streamed (Some 4) [Some [x01; x02]; Some [x03; x04]]
                      Done))) in
  outcome run = Thrown "RangeError: Invalid array length"
  /\ DFSPage.requests (effects run) = []
  /\ DFSPage.downloadingFile (DFSPage.replay (effects run) DFSPage.initial)
     = Some oversized_record.
Proof.
  intros run. subst run. rewrite oversized_record_refused.
  split; [reflexivity|split; reflexivity].
Qed.








(** C3 at the failing input: a download of a 2-chunk record started while a
    4-chunk download is in flight.  The handler closes over the progress
    array of that render, so its update has 4 slots, the last two stale. *)
Theorem handleDownload_stale_progress_array :
  let first :=
    DFSPage.handleDownload None DFSPage.initial (sample_record (Some 4))
      (sample_world
         (Resolved (streamed (Some 4) [Some [x01; x02]; Some [x03; x04]]
                      Done))) in
  let busy := DFSPage.replay (firstn 6 (effects first)) DFSPage.initial in
  let second :=
    DFSPage.handleDownload None busy (sample_record (Some 2))
      (sample_world (Resolved (streamed (Some 1) [Some [x05]] Done))) in
  DFSPage.downloadingFile busy = Some (sample_record (Some 4))
  /\ DFSPage.downloadProgress busy
     = [Some (200 # 4); Some (200 # 4); Some (200 # 4); Some (200 # 4)]%Q
  /\ DFSPage.progress_updates (effects second)
     = [ [Some 0; Some 0];
         [Some 100; Some 100; Some (200 # 4); Some (200 # 4)];
         [] ]%Q.
Proof. repeat split. Qed.

(* ================================================================== *)
(** ** Listing, deleting, uploading *)

Lemma fetchFiles_returns env answer :
  outcome (DFSPage.fetchFiles env answer) = Ok tt.
Proof. destruct_answer answer; reflexivity. Qed.

Lemma fetchFiles_nodfs_returns env answer :
  outcome (NoDFSPage.fetchFiles env answer) = Ok tt.
Proof. destruct_answer answer; reflexivity. Qed.

(** C10: when the listing request fails (rejected, non-success status, or a
    body that is not JSON) the handler only logs the error and sets the status
    message: the file list held before is left unchanged.  Both pages. *)
Theorem fetchFiles_failure_keeps_list :
  (forall env current answer,
      ~ succeeds answer ->
      let run := DFSPage.fetchFiles env answer in
      outcome run = Ok tt
      /\ (exists error,
             effects run
             = [ DFSPage.Browser
                   (Fetch "GET" (DFSPage.backendUrl env ++ "/list")%string None);
                 DFSPage.Browser (ConsoleError error);
                 DFSPage.setErrorMessage "Error fetching file list" ])
      /\ DFSPage.replay (effects run) current
         = DFSPage.apply current
             (DFSPage.setErrorMessage "Error fetching file list")
      /\ DFSPage.fileList (DFSPage.replay (effects run) current)
         = DFSPage.fileList current)
  /\ (forall env current answer,
         ~ succeeds answer ->
         let run := NoDFSPage.fetchFiles env answer in
         outcome run = Ok tt
         /\ (exists error,
                effects run
                = [ NoDFSPage.Browser
                      (Fetch "GET"
                         (NoDFSPage.backendUrl env ++ "/list_nodfs")%string
                         None);
                    NoDFSPage.Browser (ConsoleError error);
                    NoDFSPage.setErrorMessage "Error fetching file list" ])
         /\ NoDFSPage.replay (effects run) current
            = NoDFSPage.apply current
                (NoDFSPage.setErrorMessage "Error fetching file list")
         /\ NoDFSPage.fileList (NoDFSPage.replay (effects run) current)
            = NoDFSPage.fileList current).
Proof.
  split; intros env current answer Hfail run; subst run;
    destruct_answer answer; try (contradict_failure Hfail);
    (split; [reflexivity|]); (split; [eexists; reflexivity|]);
    split; reflexivity.
Qed.

Lemma fetchFiles_failure_keeps_list_witness :
  let held :=
    {| DFSPage.fileList := [sample_record (Some 4); sample_record None];
       DFSPage.selectedFile := None;
       DFSPage.uploading := false;
       DFSPage.downloadProgress := [];
       DFSPage.downloadingFile := None;
       DFSPage.downloadTime := None;
       DFSPage.errorMessage := "" |} in
  DFSPage.fileList
    (DFSPage.replay
       (effects (DFSPage.fetchFiles None (Resolved (answered false []))))
       held)
  = [sample_record (Some 4); sample_record None].
Proof.
  intros held.
  destruct fetchFiles_failure_keeps_list as [Hdfs _].
  apply (Hdfs None held (Resolved (answered false []))).
  intros Hsucceeds. inspect_succeeds Hsucceeds.
Defined.

(** C7, as amended: a delete request answered by a success whose JSON body
    can be read runs [fetchFiles] to refresh the list; on any other answer
    (non-success status, rejected request, or a success whose body cannot be
    read) the only request made is the delete itself, the file list is left
    as it was and the status message is the delete failure. *)
Theorem handleDelete_refreshes_or_keeps env current fileId
        delete_answer list_answer :
  let run := DFSPage.handleDelete env fileId delete_answer list_answer in
  let request :=
    Fetch "DELETE"
      (DFSPage.backendUrl env ++ "/delete?file_id="
         ++ String_of_number fileId)%string None in
  outcome run = Ok tt
  /\ (succeeds delete_answer ->
      effects run
      = [ DFSPage.setErrorMessage "";
          DFSPage.Browser request;
          DFSPage.Browser (ConsoleLog "Delete successful") ]
        ++ effects (DFSPage.fetchFiles env list_answer))
  /\ (~ succeeds delete_answer ->
      DFSPage.requests (effects run) = [request]
      /\ DFSPage.fileList (DFSPage.replay (effects run) current)
         = DFSPage.fileList current
      /\ DFSPage.errorMessage (DFSPage.replay (effects run) current)
         = "Delete failed").
Proof.
  intros run request. subst run request.
  pose proof (fetchFiles_returns env list_answer) as Hlist.
  unfold DFSPage.handleDelete, DFSPage.fetch, DFSPage.res_json.
  destruct (DFSPage.fetchFiles env list_answer) as [listing completion].
  unfold outcome in Hlist. simpl in Hlist. subst completion.
  destruct_answer delete_answer; simpl;
    (split; [reflexivity|]);
    (split; [intros Hsucceeds; try reflexivity; inspect_succeeds Hsucceeds
            |intros Hfail; try (contradict_failure Hfail); repeat split]).
Qed.

Lemma handleDelete_refreshes_or_keeps_witness :
  let held :=
    {| DFSPage.fileList := [sample_record (Some 4)];
       DFSPage.selectedFile := None;
       DFSPage.uploading := false;
       DFSPage.downloadProgress := [];
       DFSPage.downloadingFile := None;
       DFSPage.downloadTime := None;
       DFSPage.errorMessage := "" |} in
  let refused :=
    DFSPage.handleDelete None 7 (Resolved (answered false []))
      (Resolved (answered true [])) in
  let accepted :=
    DFSPage.handleDelete None 7 (Resolved (answered true []))
      (Resolved (answered true [])) in
  (DFSPage.fileList (DFSPage.replay (effects refused) held)
   = [sample_record (Some 4)]
   /\ DFSPage.errorMessage (DFSPage.replay (effects refused) held)
      = "Delete failed")
  /\ DFSPage.fileList (DFSPage.replay (effects accepted) held) = [].
Proof.
  intros held refused accepted. split.
  - destruct (handleDelete_refreshes_or_keeps None held 7
                (Resolved (answered false [])) (Resolved (answered true [])))
      as [_ [_ Hkeeps]].
    destruct Hkeeps as [_ [Hlist Hmessage]].
    + intros Hsucceeds. inspect_succeeds Hsucceeds.
    + split; [exact Hlist|exact Hmessage].
  - destruct (handleDelete_refreshes_or_keeps None held 7
                (Resolved (answered true [])) (Resolved (answered true [])))
      as [_ [Hrefresh _]].
    subst accepted. rewrite Hrefresh.
    + reflexivity.
    + exists (answered true []), {| files := [] |}.
      split; [reflexivity|split; reflexivity].
Defined.

(** C7 as stated fails: a delete answered by a success without a readable
    body (a 204, for one) triggers no listing and reports a delete
    failure. *)
Lemma handleDelete_success_without_body_no_refresh :
  let answer : Response DFSPage.FileRecord := unreadable true in
  let run :=
    DFSPage.handleDelete None 7 (Resolved answer)
      (Resolved (answered true [])) in
  ok answer = true
  /\ ~ In (list_request None) (DFSPage.requests (effects run))
  /\ DFSPage.errorMessage (DFSPage.replay (effects run) DFSPage.initial)
     = "Delete failed".
Proof.
  split; [reflexivity|split; [|reflexivity]].
  intros [Hin|[]]. discriminate Hin.
Qed.

(** C8: submitting with no file selected only prevents the default form
    action: no request, no setter call, the state is unchanged; with a file
    selected the handler returns normally on every answer of the network and
    leaves [uploading] false.  Both pages. *)
Theorem handleUploadSubmit_guard_and_release :
  (forall env render current upload_answer list_answer,
      let run :=
        DFSPage.handleUploadSubmit env render upload_answer list_answer in
      outcome run = Ok tt
      /\ (DFSPage.selectedFile render = None ->
          effects run = [DFSPage.Browser PreventDefault]
          /\ DFSPage.requests (effects run) = []
          /\ DFSPage.replay (effects run) current = current)
      /\ (DFSPage.selectedFile render <> None ->
          DFSPage.uploading (DFSPage.replay (effects run) current) = false))
  /\ (forall env render current upload_answer list_answer,
         let run :=
           NoDFSPage.handleUploadSubmit env render upload_answer list_answer in
         outcome run = Ok tt
         /\ (NoDFSPage.selectedFile render = None ->
             effects run = [NoDFSPage.Browser PreventDefault]
             /\ NoDFSPage.requests (effects run) = []
             /\ NoDFSPage.replay (effects run) current = current)
         /\ (NoDFSPage.selectedFile render <> None ->
             NoDFSPage.uploading (NoDFSPage.replay (effects run) current)
             = false)).
Proof.
  split; intros env render current upload_answer list_answer run; subst run.
  - pose proof (fetchFiles_returns env list_answer) as Hlist.
    unfold DFSPage.handleUploadSubmit, DFSPage.fetch, DFSPage.res_json.
    destruct (DFSPage.fetchFiles env list_answer) as [listing completion].
    unfold outcome in Hlist. simpl in Hlist. subst completion.
    destruct (DFSPage.selectedFile render) as [file|].
    + destruct_answer upload_answer; simpl;
        (split; [reflexivity|]); (split; [discriminate|]); intros _;
        unfold DFSPage.replay; rewrite ?fold_left_app; reflexivity.
    + simpl. split; [reflexivity|]. split; [|congruence].
      intros _. repeat split.
  - pose proof (fetchFiles_nodfs_returns env list_answer) as Hlist.
    unfold NoDFSPage.handleUploadSubmit, NoDFSPage.fetch, NoDFSPage.res_json.
    destruct (NoDFSPage.fetchFiles env list_answer) as [listing completion].
    unfold outcome in Hlist. simpl in Hlist. subst completion.
    destruct (NoDFSPage.selectedFile render) as [file|].
    + destruct_answer upload_answer; simpl;
        (split; [reflexivity|]); (split; [discriminate|]); intros _;
        unfold NoDFSPage.replay; rewrite ?fold_left_app; reflexivity.
    + simpl. split; [reflexivity|]. split; [|congruence].
      intros _. repeat split.
Qed.

Lemma handleUploadSubmit_guard_and_release_witness :
  let picked :=
    {| NoDFSPage.fileList := [];
       NoDFSPage.selectedFile := Some sample_upload;
       NoDFSPage.uploading := false;
       NoDFSPage.downloadTime := None;
       NoDFSPage.errorMessage := "" |} in
  (DFSPage.requests
     (effects (DFSPage.handleUploadSubmit None DFSPage.initial
                 (Rejected "offline") (Rejected "offline"))) = []
   /\ DFSPage.replay
        (effects (DFSPage.handleUploadSubmit None DFSPage.initial
                    (Rejected "offline") (Rejected "offline")))
        DFSPage.initial
      = DFSPage.initial)
  /\ NoDFSPage.uploading
       (NoDFSPage.replay
          (effects (NoDFSPage.handleUploadSubmit None picked
                      (Rejected "offline") (Rejected "offline")))
          picked)
     = false.
Proof.
  intros picked.
  destruct handleUploadSubmit_guard_and_release as [Hdfs Hnodfs].
  split.
  - destruct (Hdfs None DFSPage.initial DFSPage.initial
                (Rejected "offline") (Rejected "offline"))
      as [_ [Hguard _]].
    destruct (Hguard eq_refl) as [_ [Hrequests Hstate]].
    split; [exact Hrequests|exact Hstate].
  - destruct (Hnodfs None picked picked (Rejected "offline")
                (Rejected "offline"))
      as [_ [_ Hrelease]].
    apply Hrelease. discriminate.
Defined.




(* ================================================================== *)
(** ** Further properties: listing *)

(** X1: a listing answered with an [ok] response whose body parses replaces
    the file list by [data.files], whatever it held, with one request and one
    setter call; nothing else changes -- in particular a status message shown
    before stays.  Both pages. *)
Theorem fetchFiles_success_replaces_list :
  (forall env current r data,
      ok r = true ->
      json r = Some data ->
      let run := DFSPage.fetchFiles env (Resolved r) in
      effects run
      = [ DFSPage.Browser
            (Fetch "GET" (DFSPage.backendUrl env ++ "/list")%string None);
          DFSPage.setFileList (files data) ]
      /\ DFSPage.replay (effects run) current
         = DFSPage.apply current (DFSPage.setFileList (files data))
      /\ DFSPage.errorMessage (DFSPage.replay (effects run) current)
         = DFSPage.errorMessage current)
  /\ (forall env current r data,
         ok r = true ->
         json r = Some data ->
         let run := NoDFSPage.fetchFiles env (Resolved r) in
         effects run
         = [ NoDFSPage.Browser
               (Fetch "GET" (NoDFSPage.backendUrl env ++ "/list_nodfs")%string
                  None);
             NoDFSPage.setFileList (files data) ]
         /\ NoDFSPage.replay (effects run) current
            = NoDFSPage.apply current (NoDFSPage.setFileList (files data))
         /\ NoDFSPage.errorMessage (NoDFSPage.replay (effects run) current)
            = NoDFSPage.errorMessage current).
Proof.
  split; intros env current r data Hok Hjson run; subst run.
  - unfold DFSPage.fetchFiles, DFSPage.fetch, DFSPage.res_json. simpl.
    rewrite Hok, Hjson. simpl. split; [reflexivity|split; reflexivity].
  - unfold NoDFSPage.fetchFiles, NoDFSPage.fetch, NoDFSPage.res_json. simpl.
    rewrite Hok, Hjson. simpl. split; [reflexivity|split; reflexivity].
Qed.

Lemma fetchFiles_success_replaces_list_witness :
  let stale :=
    {| DFSPage.fileList := [sample_record None];
       DFSPage.selectedFile := None;
       DFSPage.uploading := false;
       DFSPage.downloadProgress := [];
       DFSPage.downloadingFile := None;
       DFSPage.downloadTime := None;
       DFSPage.errorMessage := "Error fetching file list" |} in
  let final :=
    DFSPage.replay
      (effects (DFSPage.fetchFiles None
                  (Resolved (answered true [sample_record (Some 4)]))))
      stale in
  DFSPage.fileList final = [sample_record (Some 4)]
  /\ DFSPage.errorMessage final = "Error fetching file list".
Proof.
  intros stale final.
  destruct fetchFiles_success_replaces_list as [Hdfs _].
  destruct (Hdfs None stale (answered true [sample_record (Some 4)])
              {| files := [sample_record (Some 4)] |} eq_refl eq_refl)
    as [_ [Hstate Hmessage]].
  split.
  - subst final. rewrite Hstate. reflexivity.
  - exact Hmessage.
Defined.

(** X3: the effect run at mount, started from the initial state, ends either
    with the listed files and no status message, or -- when the listing
    fails -- with the empty list and the listing error.  Both pages. *)
Theorem useEffect_mount_from_initial :
  (forall env answer,
      let final :=
        DFSPage.replay (effects (DFSPage.useEffect_mount env answer))
          DFSPage.initial in
      (forall r data,
          answer = Resolved r -> ok r = true -> json r = Some data ->
          final = DFSPage.apply DFSPage.initial
                    (DFSPage.setFileList (files data)))
      /\ (~ succeeds answer ->
          final = DFSPage.apply DFSPage.initial
                    (DFSPage.setErrorMessage "Error fetching file list")))
  /\ (forall env answer,
         let final :=
           NoDFSPage.replay (effects (NoDFSPage.useEffect_mount env answer))
             NoDFSPage.initial in
         (forall r data,
             answer = Resolved r -> ok r = true -> json r = Some data ->
             final = NoDFSPage.apply NoDFSPage.initial
                       (NoDFSPage.setFileList (files data)))
         /\ (~ succeeds answer ->
             final = NoDFSPage.apply NoDFSPage.initial
                       (NoDFSPage.setErrorMessage "Error fetching file list"))).
Proof.
  split; intros env answer final; subst final; split.
  - intros r data -> Hok Hjson.
    unfold DFSPage.useEffect_mount, DFSPage.fetchFiles, DFSPage.fetch,
      DFSPage.res_json.
    simpl. rewrite Hok, Hjson. reflexivity.
  - intros Hfail. destruct_answer answer; try (contradict_failure Hfail);
      reflexivity.
  - intros r data -> Hok Hjson.
    unfold NoDFSPage.useEffect_mount, NoDFSPage.fetchFiles, NoDFSPage.fetch,
      NoDFSPage.res_json.
    simpl. rewrite Hok, Hjson. reflexivity.
  - intros Hfail. destruct_answer answer; try (contradict_failure Hfail);
      reflexivity.
Qed.

Lemma useEffect_mount_from_initial_witness :
  DFSPage.replay
    (effects (DFSPage.useEffect_mount None (Rejected "offline")))
    DFSPage.initial
  = DFSPage.apply DFSPage.initial
      (DFSPage.setErrorMessage "Error fetching file list").
Proof.
  destruct useEffect_mount_from_initial as [Hdfs _].
  destruct (Hdfs None (Rejected "offline")) as [_ Hfails].
  apply Hfails. intros Hsucceeds. inspect_succeeds Hsucceeds.
Defined.

(* ================================================================== *)
(** ** Further properties: upload *)

(** A refresh touches the file list and the status message only. *)
Lemma fetchFiles_frame env answer current :
  let final := DFSPage.replay (effects (DFSPage.fetchFiles env answer)) current in
  DFSPage.selectedFile final = DFSPage.selectedFile current
  /\ DFSPage.uploading final = DFSPage.uploading current
  /\ DFSPage.downloadProgress final = DFSPage.downloadProgress current
  /\ DFSPage.downloadingFile final = DFSPage.downloadingFile current
  /\ DFSPage.downloadTime final = DFSPage.downloadTime current.
Proof. destruct_answer answer; repeat split. Qed.

Lemma fetchFiles_nodfs_frame env answer current :
  let final :=
    NoDFSPage.replay (effects (NoDFSPage.fetchFiles env answer)) current in
  NoDFSPage.selectedFile final = NoDFSPage.selectedFile current
  /\ NoDFSPage.uploading final = NoDFSPage.uploading current
  /\ NoDFSPage.downloadTime final = NoDFSPage.downloadTime current.
Proof. destruct_answer answer; repeat split. Qed.

Lemma replay_nodfs_app (l1 l2 : list NoDFSPage.effect) (s : NoDFSPage.State) :
  NoDFSPage.replay (l1 ++ l2) s = NoDFSPage.replay l2 (NoDFSPage.replay l1 s).
Proof. apply fold_left_app. Qed.

(** The log of an accepted upload. *)
Lemma handleUploadSubmit_accepted env render file upload_answer list_answer :
  DFSPage.selectedFile render = Some file ->
  succeeds upload_answer ->
  DFSPage.handleUploadSubmit env render upload_answer list_answer
  = ([ DFSPage.Browser PreventDefault;
       DFSPage.setUploading true;
       DFSPage.setErrorMessage "";
       DFSPage.Browser
         (Fetch "POST" (DFSPage.backendUrl env ++ "/upload")%string (Some file));
       DFSPage.Browser (ConsoleLog "Upload successful");
       DFSPage.setSelectedFile None ]
       ++ effects (DFSPage.fetchFiles env list_answer)
       ++ [DFSPage.setUploading false],
     Ok tt).
Proof.
  intros Hfile Hsucceeds.
  pose proof (fetchFiles_returns env list_answer) as Hlist.
  unfold DFSPage.handleUploadSubmit, DFSPage.fetch, DFSPage.res_json.
  rewrite Hfile.
  destruct (DFSPage.fetchFiles env list_answer) as [listing completion].
  unfold outcome in Hlist. simpl in Hlist. subst completion.
  destruct_answer upload_answer; inspect_succeeds Hsucceeds.
  simpl. reflexivity.
Qed.

Lemma handleUploadSubmit_nodfs_accepted env render file upload_answer
      list_answer :
  NoDFSPage.selectedFile render = Some file ->
  succeeds upload_answer ->
  NoDFSPage.handleUploadSubmit env render upload_answer list_answer
  = ([ NoDFSPage.Browser PreventDefault;
       NoDFSPage.setUploading true;
       NoDFSPage.setErrorMessage "";
       NoDFSPage.Browser
         (Fetch "POST" (NoDFSPage.backendUrl env ++ "/upload_nodfs")%string
            (Some file));
       NoDFSPage.Browser (ConsoleLog "Upload successful");
       NoDFSPage.setSelectedFile None ]
       ++ effects (NoDFSPage.fetchFiles env list_answer)
       ++ [NoDFSPage.setUploading false],
     Ok tt).
Proof.
  intros Hfile Hsucceeds.
  pose proof (fetchFiles_nodfs_returns env list_answer) as Hlist.
  unfold NoDFSPage.handleUploadSubmit, NoDFSPage.fetch, NoDFSPage.res_json.
  rewrite Hfile.
  destruct (NoDFSPage.fetchFiles env list_answer) as [listing completion].
  unfold outcome in Hlist. simpl in Hlist. subst completion.
  destruct_answer upload_answer; inspect_succeeds Hsucceeds.
  simpl. reflexivity.
Qed.



(** X5: a refused upload (request rejected, status not ok, or unreadable
    body) makes no second request, keeps the selected file and the file list,
    shows the upload failure and re-enables the form.  Both pages. *)
Theorem handleUploadSubmit_failure_keeps_selection :
  (forall env render current file upload_answer list_answer,
      DFSPage.selectedFile render = Some file ->
      ~ succeeds upload_answer ->
      let run :=
        DFSPage.handleUploadSubmit env render upload_answer list_answer in
      let final := DFSPage.replay (effects run) current in
      DFSPage.requests (effects run)
      = [Fetch "POST" (DFSPage.backendUrl env ++ "/upload")%string (Some file)]
      /\ DFSPage.selectedFile final = DFSPage.selectedFile current
      /\ DFSPage.fileList final = DFSPage.fileList current
      /\ DFSPage.errorMessage final = "Upload failed"
      /\ DFSPage.uploading final = false)
  /\ (forall env render current file upload_answer list_answer,
         NoDFSPage.selectedFile render = Some file ->
         ~ succeeds upload_answer ->
         let run :=
           NoDFSPage.handleUploadSubmit env render upload_answer list_answer in
         let final := NoDFSPage.replay (effects run) current in
         NoDFSPage.requests (effects run)
         = [Fetch "POST" (NoDFSPage.backendUrl env ++ "/upload_nodfs")%string
              (Some file)]
         /\ NoDFSPage.selectedFile final = NoDFSPage.selectedFile current
         /\ NoDFSPage.fileList final = NoDFSPage.fileList current
         /\ NoDFSPage.errorMessage final = "Upload failed"
         /\ NoDFSPage.uploading final = false).
Proof.
  split; intros env render current file upload_answer list_answer Hfile Hfail
                run final; subst run final.
  - unfold DFSPage.handleUploadSubmit, DFSPage.fetch, DFSPage.res_json.
    rewrite Hfile.
    destruct_answer upload_answer; try (contradict_failure Hfail);
      repeat split.
  - unfold NoDFSPage.handleUploadSubmit, NoDFSPage.fetch, NoDFSPage.res_json.
    rewrite Hfile.
    destruct_answer upload_answer; try (contradict_failure Hfail);
      repeat split.
Qed.

Lemma handleUploadSubmit_failure_keeps_selection_witness :
  let picked :=
    {| NoDFSPage.fileList := [sample_file];
       NoDFSPage.selectedFile := Some sample_upload;
       NoDFSPage.uploading := false;
       NoDFSPage.downloadTime := None;
       NoDFSPage.errorMessage := "" |} in
  let final :=
    NoDFSPage.replay
      (effects (NoDFSPage.handleUploadSubmit None picked
                  (Resolved (answered false [])) (Rejected "offline")))
      picked in
  NoDFSPage.selectedFile final = Some sample_upload
  /\ NoDFSPage.fileList final = [sample_file]
  /\ NoDFSPage.errorMessage final = "Upload failed".
Proof.
  intros picked final.
  destruct handleUploadSubmit_failure_keeps_selection as [_ Hnodfs].
  destruct (Hnodfs None picked picked sample_upload
              (Resolved (answered false [])) (Rejected "offline") eq_refl)
    as [_ [Hselection [Hlist [Hmessage _]]]].
  - intros Hsucceeds. inspect_succeeds Hsucceeds.
  - split; [exact Hselection|split; [exact Hlist|exact Hmessage]].
Defined.

(** X6: while the upload request is in flight the form is disabled and the
    status message cleared: the setter calls made before the request leave
    [uploading] true and the message empty.  Both pages. *)
Theorem handleUploadSubmit_disabled_in_flight :
  (forall env render current file upload_answer list_answer,
      DFSPage.selectedFile render = Some file ->
      exists before after,
        effects (DFSPage.handleUploadSubmit env render upload_answer
                   list_answer)
        = before
            ++ DFSPage.Browser
                 (Fetch "POST" (DFSPage.backendUrl env ++ "/upload")%string
                    (Some file))
            :: after
        /\ DFSPage.requests before = []
        /\ DFSPage.uploading (DFSPage.replay before current) = true
        /\ DFSPage.errorMessage (DFSPage.replay before current) = "")
  /\ (forall env render current file upload_answer list_answer,
         NoDFSPage.selectedFile render = Some file ->
         exists before after,
           effects (NoDFSPage.handleUploadSubmit env render upload_answer
                      list_answer)
           = before
               ++ NoDFSPage.Browser
                    (Fetch "POST"
                       (NoDFSPage.backendUrl env ++ "/upload_nodfs")%string
                       (Some file))
               :: after
           /\ NoDFSPage.requests before = []
           /\ NoDFSPage.uploading (NoDFSPage.replay before current) = true
           /\ NoDFSPage.errorMessage (NoDFSPage.replay before current) = "").
Proof.
  split; intros env render current file upload_answer list_answer Hfile.
  - exists [ DFSPage.Browser PreventDefault; DFSPage.setUploading true;
             DFSPage.setErrorMessage "" ].
    pose proof (fetchFiles_returns env list_answer) as Hlist.
    unfold DFSPage.handleUploadSubmit, DFSPage.fetch, DFSPage.res_json.
    rewrite Hfile.
    destruct (DFSPage.fetchFiles env list_answer) as [listing completion].
    unfold outcome in Hlist. simpl in Hlist. subst completion.
    destruct_answer upload_answer; simpl; eexists;
      (split; [reflexivity|repeat split]).
  - exists [ NoDFSPage.Browser PreventDefault; NoDFSPage.setUploading true;
             NoDFSPage.setErrorMessage "" ].
    pose proof (fetchFiles_nodfs_returns env list_answer) as Hlist.
    unfold NoDFSPage.handleUploadSubmit, NoDFSPage.fetch, NoDFSPage.res_json.
    rewrite Hfile.
    destruct (NoDFSPage.fetchFiles env list_answer) as [listing completion].
    unfold outcome in Hlist. simpl in Hlist. subst completion.
    destruct_answer upload_answer; simpl; eexists;
      (split; [reflexivity|repeat split]).
Qed.

Lemma handleUploadSubmit_disabled_in_flight_witness :
  let picked :=
    {| DFSPage.fileList := [];
       DFSPage.selectedFile := Some sample_upload;
       DFSPage.uploading := false;
       DFSPage.downloadProgress := [];
       DFSPage.downloadingFile := None;
       DFSPage.downloadTime := None;
       DFSPage.errorMessage := "Upload failed" |} in
  exists before after,
    effects (DFSPage.handleUploadSubmit None picked (Rejected "offline")
               (Rejected "offline"))
    = before
        ++ DFSPage.Browser
             (Fetch "POST"
                "https://tender-energy-production.up.railway.app/upload"
                (Some sample_upload))
        :: after
    /\ DFSPage.requests before = []
    /\ DFSPage.uploading (DFSPage.replay before picked) = true
    /\ DFSPage.errorMessage (DFSPage.replay before picked) = "".
Proof.
  intros picked.
  destruct handleUploadSubmit_disabled_in_flight as [Hdfs _].
  exact (Hdfs None picked picked sample_upload (Rejected "offline")
           (Rejected "offline") eq_refl).
Defined.

(** X7: after an accepted upload the selection is gone, so a handler created
    at the resulting render, submitted again without choosing a file, sends
    nothing whatever the network would answer.  Both pages. *)
Theorem handleUploadSubmit_resubmit_sends_nothing :
  (forall env render current file upload_answer list_answer again_upload
          again_list,
      DFSPage.selectedFile render = Some file ->
      succeeds upload_answer ->
      let after :=
        DFSPage.replay
          (effects (DFSPage.handleUploadSubmit env render upload_answer
                      list_answer)) current in
      DFSPage.handleUploadSubmit env after again_upload again_list
      = ([DFSPage.Browser PreventDefault], Ok tt))
  /\ (forall env render current file upload_answer list_answer again_upload
             again_list,
         NoDFSPage.selectedFile render = Some file ->
         succeeds upload_answer ->
         let after :=
           NoDFSPage.replay
             (effects (NoDFSPage.handleUploadSubmit env render upload_answer
                         list_answer)) current in
         NoDFSPage.handleUploadSubmit env after again_upload again_list
         = ([NoDFSPage.Browser PreventDefault], Ok tt)).
Proof.
  split; intros env render current file upload_answer list_answer
                again_upload again_list Hfile Hsucceeds after.
  - assert (Hnone : DFSPage.selectedFile after = None).
    { subst after.
      rewrite (handleUploadSubmit_accepted env render file) by assumption.
      unfold effects at 1, fst.
      destruct_answer list_answer; reflexivity. }
    unfold DFSPage.handleUploadSubmit. rewrite Hnone. reflexivity.
  - assert (Hnone : NoDFSPage.selectedFile after = None).
    { subst after.
      rewrite (handleUploadSubmit_nodfs_accepted env render file)
        by assumption.
      unfold effects at 1, fst.
      destruct_answer list_answer; reflexivity. }
    unfold NoDFSPage.handleUploadSubmit. rewrite Hnone. reflexivity.
Qed.

Lemma handleUploadSubmit_resubmit_sends_nothing_witness :
  let picked :=
    {| DFSPage.fileList := [];
       DFSPage.selectedFile := Some sample_upload;
       DFSPage.uploading := false;
       DFSPage.downloadProgress := [];
       DFSPage.downloadingFile := None;
       DFSPage.downloadTime := None;
       DFSPage.errorMessage := "" |} in
  let after :=
    DFSPage.replay
      (effects (DFSPage.handleUploadSubmit None picked
                  (Resolved (answered true []))
                  (Resolved (answered true []))))
      picked in
  DFSPage.handleUploadSubmit None after (Resolved (answered true []))
    (Resolved (answered true []))
  = ([DFSPage.Browser PreventDefault], Ok tt).
Proof.
  intros picked after.
  destruct handleUploadSubmit_resubmit_sends_nothing as [Hdfs _].
  apply (Hdfs None picked picked sample_upload
           (Resolved (answered true [])) (Resolved (answered true []))
           (Resolved (answered true [])) (Resolved (answered true []))
           eq_refl).
  exists (answered true []), {| files := [] |}.
  split; [reflexivity|split; reflexivity].
Defined.

(** X8: choosing files selects the first of them, and that is the file the
    next submission posts; a change event without files ([null] or an empty
    list) keeps the selection as it was.  Both pages. *)
Theorem handleFileChange_selects_first :
  (forall env current file others upload_answer list_answer,
      let chosen :=
        DFSPage.replay
          (effects (DFSPage.handleFileChange (Some (file :: others))))
          current in
      DFSPage.selectedFile chosen = Some file
      /\ (exists more,
             DFSPage.requests
               (effects (DFSPage.handleUploadSubmit env chosen upload_answer
                           list_answer))
             = Fetch "POST" (DFSPage.backendUrl env ++ "/upload")%string
                 (Some file) :: more))
  /\ (forall current,
         DFSPage.replay (effects (DFSPage.handleFileChange None)) current
         = current
         /\ DFSPage.replay (effects (DFSPage.handleFileChange (Some [])))
              current
            = current)
  /\ (forall env current file others upload_answer list_answer,
         let chosen :=
           NoDFSPage.replay
             (effects (NoDFSPage.handleFileChange (Some (file :: others))))
             current in
         NoDFSPage.selectedFile chosen = Some file
         /\ (exists more,
                NoDFSPage.requests
                  (effects (NoDFSPage.handleUploadSubmit env chosen
                              upload_answer list_answer))
                = Fetch "POST"
                    (NoDFSPage.backendUrl env ++ "/upload_nodfs")%string
                    (Some file) :: more))
  /\ (forall current,
         NoDFSPage.replay (effects (NoDFSPage.handleFileChange None)) current
         = current
         /\ NoDFSPage.replay (effects (NoDFSPage.handleFileChange (Some [])))
              current
            = current).
Proof.
  split; [|split; [|split]].
  - intros env current file others upload_answer list_answer chosen.
    split; [reflexivity|].
    pose proof (fetchFiles_returns env list_answer) as Hlist.
    unfold DFSPage.handleUploadSubmit, DFSPage.fetch, DFSPage.res_json.
    subst chosen. simpl DFSPage.selectedFile.
    destruct (DFSPage.fetchFiles env list_answer) as [listing completion].
    unfold outcome in Hlist. simpl in Hlist. subst completion.
    destruct_answer upload_answer; simpl; eexists; reflexivity.
  - intros current. split; reflexivity.
  - intros env current file others upload_answer list_answer chosen.
    split; [reflexivity|].
    pose proof (fetchFiles_nodfs_returns env list_answer) as Hlist.
    unfold NoDFSPage.handleUploadSubmit, NoDFSPage.fetch, NoDFSPage.res_json.
    subst chosen. simpl NoDFSPage.selectedFile.
    destruct (NoDFSPage.fetchFiles env list_answer) as [listing completion].
    unfold outcome in Hlist. simpl in Hlist. subst completion.
    destruct_answer upload_answer; simpl; eexists; reflexivity.
  - intros current. split; reflexivity.
Qed.

(* ================================================================== *)
(** ** Further properties: delete *)

(** X9: on the whole-file page too, an accepted delete runs the refresh, and
    on any other answer the delete is the only request, the file list is
    kept and the status message is the delete failure. *)
Theorem handleDelete_nodfs_refreshes_or_keeps env current fileId
        delete_answer list_answer :
  let run := NoDFSPage.handleDelete env fileId delete_answer list_answer in
  let request :=
    Fetch "DELETE"
      (NoDFSPage.backendUrl env ++ "/delete_nodfs?file_id="
         ++ String_of_number fileId)%string None in
  outcome run = Ok tt
  /\ (succeeds delete_answer ->
      effects run
      = [ NoDFSPage.setErrorMessage "";
          NoDFSPage.Browser request;
          NoDFSPage.Browser (ConsoleLog "Delete successful") ]
        ++ effects (NoDFSPage.fetchFiles env list_answer))
  /\ (~ succeeds delete_answer ->
      NoDFSPage.requests (effects run) = [request]
      /\ NoDFSPage.fileList (NoDFSPage.replay (effects run) current)
         = NoDFSPage.fileList current
      /\ NoDFSPage.errorMessage (NoDFSPage.replay (effects run) current)
         = "Delete failed").
Proof.
  intros run request. subst run request.
  pose proof (fetchFiles_nodfs_returns env list_answer) as Hlist.
  unfold NoDFSPage.handleDelete, NoDFSPage.fetch, NoDFSPage.res_json.
  destruct (NoDFSPage.fetchFiles env list_answer) as [listing completion].
  unfold outcome in Hlist. simpl in Hlist. subst completion.
  destruct_answer delete_answer; simpl;
    (split; [reflexivity|]);
    (split; [intros Hsucceeds; try reflexivity; inspect_succeeds Hsucceeds
            |intros Hfail; try (contradict_failure Hfail); repeat split]).
Qed.

Lemma handleDelete_nodfs_refreshes_or_keeps_witness :
  let held :=
    {| NoDFSPage.fileList := [sample_file];
       NoDFSPage.selectedFile := None;
       NoDFSPage.uploading := false;
       NoDFSPage.downloadTime := None;
       NoDFSPage.errorMessage := "" |} in
  let refused :=
    NoDFSPage.handleDelete None 7 (Rejected "offline")
      (Resolved (answered true [])) in
  NoDFSPage.fileList (NoDFSPage.replay (effects refused) held) = [sample_file]
  /\ NoDFSPage.errorMessage (NoDFSPage.replay (effects refused) held)
     = "Delete failed".
Proof.
  intros held refused.
  destruct (handleDelete_nodfs_refreshes_or_keeps None held 7
              (Rejected "offline") (Resolved (answered true [])))
    as [_ [_ Hkeeps]].
  destruct Hkeeps as [_ [Hlist Hmessage]].
  - intros Hsucceeds. inspect_succeeds Hsucceeds.
  - split; [exact Hlist|exact Hmessage].
Defined.

(** X10: an accepted delete ends in the state the refresh alone gives on a
    cleared message: the new listing with no message when the refresh
    succeeds; when the refresh fails, the old list -- still holding the
    deleted record -- under the listing error, not a delete failure.  Both
    pages. *)
Theorem handleDelete_success_then_refresh :
  (forall env current fileId delete_answer list_answer,
      succeeds delete_answer ->
      let final :=
        DFSPage.replay
          (effects (DFSPage.handleDelete env fileId delete_answer list_answer))
          current in
      final
      = DFSPage.replay (effects (DFSPage.fetchFiles env list_answer))
          (DFSPage.apply current (DFSPage.setErrorMessage ""))
      /\ (~ succeeds list_answer ->
          DFSPage.fileList final = DFSPage.fileList current
          /\ DFSPage.errorMessage final = "Error fetching file list"))
  /\ (forall env current fileId delete_answer list_answer,
         succeeds delete_answer ->
         let final :=
           NoDFSPage.replay
             (effects (NoDFSPage.handleDelete env fileId delete_answer
                         list_answer))
             current in
         final
         = NoDFSPage.replay (effects (NoDFSPage.fetchFiles env list_answer))
             (NoDFSPage.apply current (NoDFSPage.setErrorMessage ""))
         /\ (~ succeeds list_answer ->
             NoDFSPage.fileList final = NoDFSPage.fileList current
             /\ NoDFSPage.errorMessage final = "Error fetching file list")).
Proof.
  split; intros env current fileId delete_answer list_answer Hsucceeds final;
    subst final.
  - assert (Hlog : effects (DFSPage.handleDelete env fileId delete_answer
                              list_answer)
                   = [ DFSPage.setErrorMessage "";
                       DFSPage.Browser
                         (Fetch "DELETE"
                            (DFSPage.backendUrl env ++ "/delete?file_id="
                               ++ String_of_number fileId)%string None);
                       DFSPage.Browser (ConsoleLog "Delete successful") ]
                     ++ effects (DFSPage.fetchFiles env list_answer)).
    { pose proof (fetchFiles_returns env list_answer) as Hlist.
      unfold DFSPage.handleDelete, DFSPage.fetch, DFSPage.res_json.
      destruct (DFSPage.fetchFiles env list_answer) as [listing completion].
      unfold outcome in Hlist. simpl in Hlist. subst completion.
      destruct_answer delete_answer; inspect_succeeds Hsucceeds.
      reflexivity. }
    rewrite Hlog, replay_app. split; [reflexivity|].
    intros Hfail. destruct_answer list_answer;
      try (contradict_failure Hfail); split; reflexivity.
  - assert (Hlog : effects (NoDFSPage.handleDelete env fileId delete_answer
                              list_answer)
                   = [ NoDFSPage.setErrorMessage "";
                       NoDFSPage.Browser
                         (Fetch "DELETE"
                            (NoDFSPage.backendUrl env ++ "/delete_nodfs?file_id="
                               ++ String_of_number fileId)%string None);
                       NoDFSPage.Browser (ConsoleLog "Delete successful") ]
                     ++ effects (NoDFSPage.fetchFiles env list_answer)).
    { pose proof (fetchFiles_nodfs_returns env list_answer) as Hlist.
      unfold NoDFSPage.handleDelete, NoDFSPage.fetch, NoDFSPage.res_json.
      destruct (NoDFSPage.fetchFiles env list_answer) as [listing completion].
      unfold outcome in Hlist. simpl in Hlist. subst completion.
      destruct_answer delete_answer; inspect_succeeds Hsucceeds.
      reflexivity. }
    rewrite Hlog, replay_nodfs_app. split; [reflexivity|].
    intros Hfail. destruct_answer list_answer;
      try (contradict_failure Hfail); split; reflexivity.
Qed.

Lemma handleDelete_success_then_refresh_witness :
  let held :=
    {| DFSPage.fileList := [sample_record (Some 4)];
       DFSPage.selectedFile := None;
       DFSPage.uploading := false;
       DFSPage.downloadProgress := [];
       DFSPage.downloadingFile := None;
       DFSPage.downloadTime := None;
       DFSPage.errorMessage := "" |} in
  let final :=
    DFSPage.replay
      (effects (DFSPage.handleDelete None 7 (Resolved (answered true []))
                  (Rejected "offline")))
      held in
  DFSPage.fileList final = [sample_record (Some 4)]
  /\ DFSPage.errorMessage final = "Error fetching file list".
Proof.
  intros held final.
  destruct handleDelete_success_then_refresh as [Hdfs _].
  destruct (Hdfs None held 7%Z (Resolved (answered true []))
              (Rejected "offline")) as [_ Hstale].
  - exists (answered true []), {| files := [] |}.
    split; [reflexivity|split; reflexivity].
  - apply Hstale. intros Hsucceeds. inspect_succeeds Hsucceeds.
Defined.

(* ================================================================== *)
(** ** Further properties: download *)

(** X11: the download handlers never look at the status of the response: a
    response that is not [ok] but has a body is streamed, merged and saved
    exactly like an [ok] one.  Both pages. *)
Theorem handleDownload_ignores_status :
  (forall env render fileRecord start finish url r status_ok,
      DFSPage.handleDownload env render fileRecord
        {| DFSPage.startTime := start;
           DFSPage.endTime := finish;
           DFSPage.download_answer := Resolved (with_status status_ok r);
           DFSPage.objectURL := url |}
      = DFSPage.handleDownload env render fileRecord
          {| DFSPage.startTime := start;
             DFSPage.endTime := finish;
             DFSPage.download_answer := Resolved r;
             DFSPage.objectURL := url |})
  /\ (forall env file start finish url r status_ok,
         NoDFSPage.handleDownload env file
           {| NoDFSPage.startTime := start;
              NoDFSPage.endTime := finish;
              NoDFSPage.download_answer := Resolved (with_status status_ok r);
              NoDFSPage.objectURL := url |}
         = NoDFSPage.handleDownload env file
             {| NoDFSPage.startTime := start;
                NoDFSPage.endTime := finish;
                NoDFSPage.download_answer := Resolved r;
                NoDFSPage.objectURL := url |}).
Proof. split; intros; reflexivity. Qed.



(** X13: a download of the segmented page never touches the file list, the
    selected file or the upload flag, on any record.  For a chunk count
    [new Array] accepts it leaves the elapsed time [endTime - startTime] and
    an empty message when it completes, and no time at all when it fails,
    whatever time was shown before; for a chunk count from 2^32 on it stops
    before resetting anything: the time and the message shown before stay. *)
Theorem handleDownload_checked_frame_and_time env render current fileRecord w :
  let final :=
    DFSPage.replay
      (effects (DFSPage.handleDownload_checked env render fileRecord w))
      current in
  DFSPage.fileList final = DFSPage.fileList current
  /\ DFSPage.selectedFile final = DFSPage.selectedFile current
  /\ DFSPage.uploading final = DFSPage.uploading current
  /\ (array_length_ok (DFSPage.total_chunks fileRecord) ->
      (download_fails (DFSPage.download_answer w) ->
       DFSPage.downloadTime final = None)
      /\ (~ download_fails (DFSPage.download_answer w) ->
          DFSPage.downloadTime final
          = Some (DFSPage.endTime w - DFSPage.startTime w)%Z
          /\ DFSPage.errorMessage final = ""))
  /\ (~ array_length_ok (DFSPage.total_chunks fileRecord) ->
      DFSPage.downloadTime final = DFSPage.downloadTime current
      /\ DFSPage.errorMessage final = DFSPage.errorMessage current).
Proof.
  intros final. subst final.
  destruct (array_length_cases fileRecord) as [Hlength|[len [Hchunks Hlen]]].
  - rewrite (handleDownload_checked_allocates env render fileRecord w Hlength).
    destruct (download_fails_or_completes w) as [Hfail|Hdone].
    + destruct (handleDownload_fails env render fileRecord w Hfail)
        as [total [reads [error ->]]].
      unfold effects, fst. rewrite !replay_app. unfold cleanup, opening. simpl.
      match goal with
      | |- context [DFSPage.replay (map DFSPage.setDownloadProgress ?a) ?s] =>
          destruct (replay_progress_only a s)
            as [Hlist [Hselected [Huploading [_ [Htime _]]]]]
      end.
      rewrite Hlist, Hselected, Huploading, Htime. simpl.
      do 3 (split; [reflexivity|]). split.
      * intros _. split.
        -- intros _. reflexivity.
        -- intros Hno. contradiction.
      * intros Hno. contradiction.
    + destruct Hdone as [response [reader [Hanswer [Hbody Hend]]]].
      rewrite (handleDownload_completes env render fileRecord w response
                 reader) by assumption.
      unfold effects, fst. rewrite !replay_app. unfold cleanup, opening. simpl.
      match goal with
      | |- context [DFSPage.replay (map DFSPage.setDownloadProgress ?a) ?s] =>
          destruct (replay_progress_only a s)
            as [Hlist [Hselected [Huploading [_ [_ Hmessage]]]]]
      end.
      rewrite Hlist, Hselected, Huploading, Hmessage. simpl.
      do 3 (split; [reflexivity|]). split.
      * intros _. split.
        -- intros Hfail. exfalso. revert Hfail. unfold download_fails.
           rewrite Hanswer, Hbody, Hend. congruence.
        -- intros _. split; reflexivity.
      * intros Hno. contradiction.
  - rewrite (handleDownload_checked_refuses env render fileRecord w len)
      by assumption.
    unfold effects, fst. simpl.
    do 3 (split; [reflexivity|]). split.
    + intros Hlength. exfalso. rewrite Hchunks in Hlength. simpl in Hlength.
      apply (N.lt_irrefl 4294967296).
      apply (N.le_lt_trans _ _ _ Hlen Hlength).
    + intros _. split; reflexivity.
Qed.

Lemma handleDownload_checked_frame_and_time_witness :
  let shown :=
    {| DFSPage.fileList := [sample_record (Some 2)];
       DFSPage.selectedFile := Some sample_upload;
       DFSPage.uploading := false;
       DFSPage.downloadProgress := [];
       DFSPage.downloadingFile := None;
       DFSPage.downloadTime := Some 90%Z;
       DFSPage.errorMessage := "" |} in
  DFSPage.downloadTime
    (DFSPage.replay
       (effects (DFSPage.handleDownload_checked None shown
                   (sample_record (Some 2))
                   (sample_world (Rejected "offline"))))
       shown)
  = None.
Proof.
  intros shown.
  destruct (handleDownload_checked_frame_and_time None shown shown
              (sample_record (Some 2)) (sample_world (Rejected "offline")))
    as [_ [_ [_ [Hallocated _]]]].
  destruct Hallocated as [Hfailed _].
  - reflexivity.
  - apply Hfailed. simpl. exact I.
Defined.

(** X14: a download of the whole-file page returns normally on every answer
    and touches only the elapsed time and the status message.  When it
    completes it leaves the elapsed time and an empty message; when it fails
    it leaves the failure message and, the time not being reset, whatever
    time an earlier download had left. *)
Theorem handleDownload_nodfs_outcomes env current file w :
  let run := NoDFSPage.handleDownload env file w in
  let final := NoDFSPage.replay (effects run) current in
  outcome run = Ok tt
  /\ NoDFSPage.fileList final = NoDFSPage.fileList current
  /\ NoDFSPage.selectedFile final = NoDFSPage.selectedFile current
  /\ NoDFSPage.uploading final = NoDFSPage.uploading current
  /\ (download_fails_nodfs (NoDFSPage.download_answer w) ->
      NoDFSPage.errorMessage final = "Download failed"
      /\ NoDFSPage.downloadTime final = NoDFSPage.downloadTime current)
  /\ (~ download_fails_nodfs (NoDFSPage.download_answer w) ->
      NoDFSPage.errorMessage final = ""
      /\ NoDFSPage.downloadTime final
         = Some (NoDFSPage.endTime w - NoDFSPage.startTime w)%Z).
Proof.
  intros run final. subst run final.
  unfold download_fails_nodfs, NoDFSPage.handleDownload, NoDFSPage.fetch,
    NoDFSPage.res_blob.
  destruct (NoDFSPage.download_answer w) as [error|r]; simpl.
  - do 4 (split; [reflexivity|]). split.
    + intros _. split; reflexivity.
    + intros Hno. exfalso. apply Hno. exact I.
  - destruct (body r) as [reader|]; simpl.
    + destruct (blob r) as [bytes|]; simpl;
        do 4 (split; [reflexivity|]); split.
      * intros [Hnone|Hnone]; discriminate.
      * intros _. split; reflexivity.
      * intros _. split; reflexivity.
      * intros Hno. exfalso. apply Hno. now right.
    + do 4 (split; [reflexivity|]). split.
      * intros _. split; reflexivity.
      * intros Hno. exfalso. apply Hno. now left.
Qed.

Lemma handleDownload_nodfs_outcomes_witness :
  let shown :=
    {| NoDFSPage.fileList := [sample_file];
       NoDFSPage.selectedFile := None;
       NoDFSPage.uploading := false;
       NoDFSPage.downloadTime := Some 90%Z;
       NoDFSPage.errorMessage := "" |} in
  let final :=
    NoDFSPage.replay
      (effects (NoDFSPage.handleDownload None sample_file
                  (sample_world_nodfs (Rejected "offline"))))
      shown in
  NoDFSPage.errorMessage final = "Download failed"
  /\ NoDFSPage.downloadTime final = Some 90%Z.
Proof.
  intros shown final.
  destruct (handleDownload_nodfs_outcomes None shown sample_file
              (sample_world_nodfs (Rejected "offline")))
    as [_ [_ [_ [_ [Hfailed _]]]]].
  apply Hfailed. simpl. exact I.
Defined.

(* ================================================================== *)
(** ** Further properties: the progress estimate *)

(** X15: every progress update made by the read loop for a record of [n]
    chunks is the captured array with its first [n] slots overwritten by one
    and the same estimate, taken at a byte count not below the starting one:
    slots of the captured array beyond [n] survive, so the update has
    [max n (length captured)] slots. *)
Theorem read_loop_updates_overwrite_prefix captured n total reads ending
        chunks received update :
  In update
     (effects (DFSPage.read_loop captured (Some n) total reads ending chunks
                 received)) ->
  exists count,
    received <= count
    /\ update
       = DFSPage.setDownloadProgress
           (repeat (Some (DFSPage.overallProgress count total)) n
              ++ skipn n captured)
    /\ length (repeat (Some (DFSPage.overallProgress count total)) n
                 ++ skipn n captured)
       = Nat.max n (length captured).
Proof.
  intros Hin.
  assert (Hlog : effects (DFSPage.read_loop captured (Some n) total reads
                            ending chunks received)
                 = map (fun r => DFSPage.setDownloadProgress
                                   (DFSPage.distribute_all (Some n)
                                      (Qmin 100 (DFSPage.overallProgress r total))
                                      (slice captured)))
                       (received_counts reads received)).
  { destruct ending as [|error].
    - rewrite read_loop_done. reflexivity.
    - rewrite read_loop_fails. reflexivity. }
  rewrite Hlog in Hin. apply in_map_iff in Hin.
  destruct Hin as [count [<- Hcount]].
  exists count. split; [apply (received_counts_lower _ _ _ Hcount)|].
  rewrite distribute_all_Some, Qmin_100_overallProgress. unfold slice.
  split; [reflexivity|].
  rewrite length_app, repeat_length, length_skipn. lia.
Qed.

Lemma read_loop_updates_overwrite_prefix_witness :
  exists count,
    0 <= count
    /\ DFSPage.setDownloadProgress [Some 100; Some 100; Some 7; Some 8]%Q
       = DFSPage.setDownloadProgress
           (repeat (Some (DFSPage.overallProgress count 1)) 2
              ++ skipn 2 [Some 5; Some 6; Some 7; Some 8]%Q)
    /\ length (repeat (Some (DFSPage.overallProgress count 1)) 2
                 ++ skipn 2 [Some 5; Some 6; Some 7; Some 8]%Q)
       = Nat.max 2 4.
Proof.
  apply (read_loop_updates_overwrite_prefix
           [Some 5; Some 6; Some 7; Some 8]%Q 2 1 [Some [x01]] Done [] 0).
  simpl. left. reflexivity.
Defined.

(** X16: whatever the outcome of a download, every value it writes into a
    chunk slot is a percentage between 0 and 100. *)
Theorem handleDownload_progress_bounded env render fileRecord w n i a s :
  DFSPage.total_chunks fileRecord = Some n ->
  i < n ->
  In a (DFSPage.progress_updates
          (effects (DFSPage.handleDownload env render fileRecord w))) ->
  nth_error a i = Some s ->
  percentage s.
Proof.
  intros Hchunks Hi Hin Hslot.
  assert (Hshape : forall total reads tail,
             DFSPage.progress_updates tail = [[]] ->
             In a (DFSPage.progress_updates
                     (opening env fileRecord
                        ++ map DFSPage.setDownloadProgress
                             (loop_updates (DFSPage.downloadProgress render)
                                (DFSPage.total_chunks fileRecord) total reads)
                        ++ tail)) ->
             percentage s).
  { intros total reads tail Htail Ha.
    rewrite !progress_updates_app, progress_updates_setters, Htail in Ha.
    unfold opening in Ha. rewrite Hchunks in Ha.
    simpl DFSPage.progress_updates in Ha.
    apply in_app_or in Ha. destruct Ha as [[<-|[]]|Ha].
    - unfold fill in Hslot. rewrite nth_error_map in Hslot.
      rewrite (nth_error_repeat _ Hi) in Hslot. simpl in Hslot.
      injection Hslot as <-. exists 0%Q.
      split; [reflexivity|split; discriminate].
    - apply in_app_or in Ha. destruct Ha as [Ha|[<-|[]]].
      + unfold loop_updates in Ha. apply in_map_iff in Ha.
        destruct Ha as [count [<- _]].
        rewrite distribute_all_Some, Qmin_100_overallProgress in Hslot.
        rewrite nth_error_app1 in Hslot by (rewrite repeat_length; exact Hi).
        rewrite (nth_error_repeat _ Hi) in Hslot.
        injection Hslot as <-. eexists. split; [reflexivity|]. split.
        * apply overallProgress_nonneg.
        * unfold DFSPage.overallProgress. apply Q.le_min_l.
      + rewrite nth_error_nil in Hslot. discriminate. }
  destruct (download_fails_or_completes w) as [Hfail|Hdone].
  - destruct (handleDownload_fails env render fileRecord w Hfail)
      as [total [reads [error Hlog]]].
    rewrite Hlog in Hin. unfold effects, fst in Hin.
    eapply Hshape; [|exact Hin]. reflexivity.
  - destruct Hdone as [response [reader [Hanswer [Hbody Hend]]]].
    rewrite (handleDownload_completes env render fileRecord w response reader)
      in Hin by assumption.
    unfold effects, fst in Hin.
    eapply Hshape; [|exact Hin]. reflexivity.
Qed.

Lemma handleDownload_progress_bounded_witness :
  percentage (Some (200 # 4)).
Proof.
  apply (handleDownload_progress_bounded None DFSPage.initial
           (sample_record (Some 2))
           (sample_world
              (Resolved (streamed (Some 4)
                           [Some [x01; x02]; Some [x03; x04]] Done)))
           2 1 [Some (200 # 4); Some (200 # 4)]%Q (Some (200 # 4))).
  - reflexivity.
  - lia.
  - simpl. right. left. reflexivity.
  - reflexivity.
Defined.

(** X17: under a declared total of at least one byte the estimate stays
    strictly below 100 until the bytes received reach the total, and is 100
    from then on: a full bar means all declared bytes have arrived. *)
Theorem overallProgress_full_iff received total :
  1 <= total ->
  (received < total ->
   (DFSPage.overallProgress received total < 100)%Q)
  /\ (DFSPage.overallProgress received total = 100%Q <-> total <= received).
Proof.
  intros Hpos.
  assert (Hbelow : received < total ->
                   (DFSPage.overallProgress received total < 100)%Q).
  { intros Hlt. unfold DFSPage.overallProgress.
    apply Q.min_lt_iff. right.
    assert (Ht : (0 < inject_Z (Z.of_nat total))%Q).
    { change 0%Q with (inject_Z 0). rewrite <- Zlt_Qlt. lia. }
    setoid_replace 100%Q with (1 * 100)%Q at 2 by reflexivity.
    apply Qmult_lt_compat_r; [reflexivity|].
    apply Qlt_shift_div_r; [exact Ht|].
    rewrite Qmult_1_l, <- Zlt_Qlt. lia. }
  split; [exact Hbelow|]. split.
  - intros Hfull. destruct (Nat.le_gt_cases total received) as [Hle|Hlt].
    + exact Hle.
    + apply Hbelow in Hlt. rewrite Hfull in Hlt.
      exfalso. apply (Qlt_irrefl _ Hlt).
  - intros Hle. apply overallProgress_full; assumption.
Qed.

Lemma overallProgress_full_iff_witness :
  (DFSPage.overallProgress 3 4 < 100)%Q.
Proof.
  destruct (overallProgress_full_iff 3 4) as [Hbelow _].
  - lia.
  - apply Hbelow. lia.
Defined.






(* ================================================================== *)
(** ** Further properties: the requests *)

Lemma requests_app (l1 l2 : list DFSPage.effect) :
  DFSPage.requests (l1 ++ l2) = DFSPage.requests l1 ++ DFSPage.requests l2.
Proof. apply flat_map_app. Qed.

Lemma requests_setters (arrays : list (list slot)) :
  DFSPage.requests (map DFSPage.setDownloadProgress arrays) = [].
Proof.
  induction arrays as [|a rest IH]; simpl; [|rewrite IH]; reflexivity.
Qed.

(** X20: every request of every handler goes to a path under the configured
    back-end address.  A download of the whole-file page makes exactly one
    request whatever its outcome; a download of the segmented page makes
    exactly one when [new Array] accepts the chunk count and none
    otherwise.  Both pages. *)
Theorem requests_stay_under_the_backend :
  (forall env render fileRecord fileId w upload_answer delete_answer
          list_answer,
      let base := DFSPage.backendUrl env in
      let download :=
        DFSPage.requests
          (effects (DFSPage.handleDownload_checked env render fileRecord w)) in
      Forall (request_to base)
        (DFSPage.requests (effects (DFSPage.fetchFiles env list_answer)))
      /\ Forall (request_to base)
           (DFSPage.requests
              (effects (DFSPage.handleUploadSubmit env render upload_answer
                          list_answer)))
      /\ Forall (request_to base)
           (DFSPage.requests
              (effects (DFSPage.handleDelete env fileId delete_answer
                          list_answer)))
      /\ Forall (request_to base) download
      /\ (array_length_ok (DFSPage.total_chunks fileRecord) ->
          length download = 1)
      /\ (~ array_length_ok (DFSPage.total_chunks fileRecord) ->
          download = []))
  /\ (forall env render file fileId w upload_answer delete_answer list_answer,
         let base := NoDFSPage.backendUrl env in
         Forall (request_to base)
           (NoDFSPage.requests (effects (NoDFSPage.fetchFiles env list_answer)))
         /\ Forall (request_to base)
              (NoDFSPage.requests
                 (effects (NoDFSPage.handleUploadSubmit env render
                             upload_answer list_answer)))
         /\ Forall (request_to base)
              (NoDFSPage.requests
                 (effects (NoDFSPage.handleDelete env fileId delete_answer
                             list_answer)))
         /\ exists request,
              NoDFSPage.requests
                (effects (NoDFSPage.handleDownload env file w))
              = [request]
              /\ request_to base request).
Proof.
  split.
  - intros env render fileRecord fileId w upload_answer delete_answer
           list_answer base download. subst base download.
    split; [|split; [|split]].
    + destruct_answer list_answer; simpl; solve_requests.
    + unfold DFSPage.handleUploadSubmit.
      destruct (DFSPage.selectedFile render) as [file|];
        [|simpl; solve_requests].
      destruct_answer upload_answer; destruct_answer list_answer; simpl;
        solve_requests.
    + destruct_answer delete_answer; destruct_answer list_answer; simpl;
        solve_requests.
    + destruct (array_length_cases fileRecord)
        as [Hlength|[len [Hchunks Hlen]]].
      * rewrite (handleDownload_checked_allocates env render fileRecord w
                   Hlength).
        assert (Hone : DFSPage.requests
                         (effects (DFSPage.handleDownload env render
                                     fileRecord w))
                       = [ Fetch "GET"
                             (DFSPage.backendUrl env ++ "/download?file_id="
                                ++ String_of_number (DFSPage.id fileRecord))%string
                             None ]).
        { destruct (download_fails_or_completes w) as [Hfail|Hdone].
          - destruct (handleDownload_fails env render fileRecord w Hfail)
              as [total [reads [error ->]]].
            unfold effects, fst, opening, cleanup.
            rewrite !requests_app, requests_setters. reflexivity.
          - destruct Hdone as [response [reader [Hanswer [Hbody Hend]]]].
            rewrite (handleDownload_completes env render fileRecord w response
                       reader) by assumption.
            unfold effects, fst, opening, cleanup.
            rewrite !requests_app, requests_setters. reflexivity. }
        rewrite Hone. split; [solve_requests|]. split.
        -- intros _. reflexivity.
        -- intros Hno. contradiction.
      * rewrite (handleDownload_checked_refuses env render fileRecord w len)
          by assumption.
        unfold effects, fst. simpl. split; [apply Forall_nil|]. split.
        -- intros Hlength. exfalso. rewrite Hchunks in Hlength.
           simpl in Hlength. apply (N.lt_irrefl 4294967296).
           apply (N.le_lt_trans _ _ _ Hlen Hlength).
        -- intros _. reflexivity.
  - intros env render file fileId w upload_answer delete_answer list_answer
           base. subst base.
    split; [|split; [|split]].
    + destruct_answer list_answer; simpl; solve_requests.
    + unfold NoDFSPage.handleUploadSubmit.
      destruct (NoDFSPage.selectedFile render) as [chosen|];
        [|simpl; solve_requests].
      destruct_answer upload_answer; destruct_answer list_answer; simpl;
        solve_requests.
    + destruct_answer delete_answer; destruct_answer list_answer; simpl;
        solve_requests.
    + exists (Fetch "GET"
                (NoDFSPage.backendUrl env ++ "/download_nodfs?file_id="
                   ++ String_of_number (NoDFSPage.id file))%string None).
      split; [|unfold request_to; eexists; eexists; eexists; reflexivity].
      unfold NoDFSPage.handleDownload, NoDFSPage.fetch, NoDFSPage.res_blob.
      destruct (NoDFSPage.download_answer w) as [error|r]; simpl;
        [reflexivity|].
      destruct (body r) as [reader|]; simpl; [|reflexivity].
      destruct (blob r) as [bytes|]; reflexivity.
Qed.

Lemma requests_stay_under_the_backend_witness :
  length
    (DFSPage.requests
       (effects (DFSPage.handleDownload_checked None DFSPage.initial
                   (sample_record (Some 2))
                   (sample_world (Rejected "offline")))))
  = 1.
Proof.
  destruct requests_stay_under_the_backend as [Hdfs _].
  destruct (Hdfs None DFSPage.initial (sample_record (Some 2)) 7%Z
              (sample_world (Rejected "offline")) (Rejected "offline")
              (Rejected "offline") (Rejected "offline"))
    as [_ [_ [_ [_ [Hone _]]]]].
  apply Hone. reflexivity.
Defined.

(* ================================================================== *)
(** ** Further properties: overlapping downloads *)

Lemma replay_without_activation (log : list DFSPage.effect) :
  Forall (fun e => ~ activates e) log ->
  forall s,
    DFSPage.downloadingFile s = None ->
    DFSPage.downloadingFile (DFSPage.replay log s) = None.
Proof.
  induction 1 as [|e rest He _ IH]; intros s Hs; simpl.
  - exact Hs.
  - apply IH. destruct e as [ev|l|f|b|a|[r|]|t|m]; simpl; try exact Hs.
    + exfalso. apply He. exact I.
    + reflexivity.
Qed.

(** Only the first effect of a download marks a record as active. *)
Lemma handleDownload_activates_once env render fileRecord w :
  exists tail,
    effects (DFSPage.handleDownload env render fileRecord w)
    = DFSPage.setDownloadingFile (Some fileRecord) :: tail
    /\ Forall (fun e => ~ activates e) tail.
Proof.
  assert (Hquiet : forall (arrays : list (list slot)),
             Forall (fun e => ~ activates e)
                    (map DFSPage.setDownloadProgress arrays)).
  { intros arrays. apply Forall_forall. intros e He.
    apply in_map_iff in He. destruct He as [a [<- _]]. simpl. tauto. }
  destruct (download_fails_or_completes w) as [Hfail|Hdone].
  - destruct (handleDownload_fails env render fileRecord w Hfail)
      as [total [reads [error ->]]].
    eexists. unfold effects, fst, opening. simpl. split; [reflexivity|].
    repeat (apply Forall_cons; [simpl; tauto|]).
    apply Forall_app. split; [apply Hquiet|].
    unfold cleanup. simpl.
    repeat (apply Forall_cons; [simpl; tauto|]). apply Forall_nil.
  - destruct Hdone as [response [reader [Hanswer [Hbody Hend]]]].
    rewrite (handleDownload_completes env render fileRecord w response reader)
      by assumption.
    eexists. unfold effects, fst, opening. simpl. split; [reflexivity|].
    repeat (apply Forall_cons; [simpl; tauto|]).
    apply Forall_app. split; [apply Hquiet|].
    unfold cleanup, anchor_calls. simpl.
    repeat (apply Forall_cons; [simpl; tauto|]). apply Forall_nil.
Qed.

(** X21: the page tracks one active record only.  When the clean-up of one
    download runs while another download has already started, nothing the
    other download does afterwards marks its record as active again: at every
    later point of it the active record is still cleared. *)
Theorem handleDownload_overlap_stays_cleared env render fileRecord w
        started shown later current :
  effects (DFSPage.handleDownload env render fileRecord w)
  = started ++ shown ++ later ->
  started <> [] ->
  DFSPage.downloadingFile
    (DFSPage.replay shown (DFSPage.replay cleanup current))
  = None.
Proof.
  intros Hsplit Hstarted.
  destruct (handleDownload_activates_once env render fileRecord w)
    as [tail [Hlog Hquiet]].
  rewrite Hlog in Hsplit.
  destruct started as [|first started]; [congruence|].
  simpl in Hsplit. injection Hsplit as _ Htail.
  apply replay_without_activation; [|reflexivity].
  rewrite Htail in Hquiet.
  apply Forall_app in Hquiet. destruct Hquiet as [_ Hquiet].
  apply Forall_app in Hquiet. destruct Hquiet as [Hquiet _].
  exact Hquiet.
Qed.

Lemma handleDownload_overlap_stays_cleared_witness :
  DFSPage.downloadingFile
    (DFSPage.replay
       [DFSPage.setDownloadProgress [Some 100; Some 100]%Q]
       (DFSPage.replay cleanup DFSPage.initial))
  = None.
Proof.
  apply (handleDownload_overlap_stays_cleared None DFSPage.initial
           (sample_record (Some 2))
           (sample_world (Resolved (streamed (Some 2) [Some [x01; x02]] Done)))
           (opening None (sample_record (Some 2)))
           [DFSPage.setDownloadProgress [Some 100; Some 100]%Q]
           (DFSPage.setDownloadTime (Some 250%Z)
            :: map DFSPage.Browser
                 (NewBlob [x01; x02]
                  :: CreateObjectURL [x01; x02] "blob:1"
                  :: anchor_calls "blob:1" "report.bin")
            ++ cleanup)).
  - reflexivity.
  - discriminate.
Defined.
